(** * huper backend: persistence boundary

    A shallow embedding of
      - [backend/database/initializer.py]  (class [DBManager]) and
      - [backend/database/repositories/report.py]  (class [ReportRepository])
    together with the properties of the bootstrap sequence and of the
    report repository that the specification states about them.

    Python values are dynamically typed, so payload values are kept in a
    small universe [value]; calls that can raise return in a state and
    exception monad [M]; the database behind the SQLAlchemy session is an
    explicit table of rows.

    Conventions of the model:
      - every repository method commits before it returns, so the state
        between calls is the committed table; a call that raises leaves
        the table as the last commit left it;
      - a string column compares with a bound parameter as the server's
        collation has it: the repository is given at the binary collation
        (exact equality of the strings), and the duplicate lookup and the
        upsert once more for any collation, the case-insensitive one
        that SQL Server uses by default among them;
      - the primary key [id] is an identity column, which the server
        assigns and does not let an UPDATE change;
      - [str.lower()] is taken on ASCII;
      - [ORDER BY] puts NULL lowest and leaves rows that tie on every
        ordering column in table order. *)

From stdpp Require Import base option list gmap strings sorting.
From Stdlib Require Import ZArith String Ascii Bool Lia.

Local Open Scope Z_scope.
Local Open Scope string_scope.

(** ** Python values, exceptions, and the monad of calls *)

(** The values that occur in report payloads ([Dict[str, Any]]): [None],
    integers and strings. *)
Inductive value : Type :=
  | VNone
  | VInt (n : Z)
  | VStr (s : string).

#[global] Instance value_eq_dec : EqDecision value.
Proof. solve_decision. Defined.

(** Python truthiness of [is not None]. *)
Definition is_none (v : value) : bool :=
  match v with VNone => true | _ => false end.

(** The exceptions the two modules raise or let through.  [OtherError]
    stands for any exception class outside the ones the code names. *)
Inductive exn : Type :=
  | KeyError (key : string)
  | AttributeError
  | TypeError
  | RuntimeError
  | FileNotFoundError
  | SQLAlchemyError
  | MultipleResultsFound
  | IntegrityError
  | DBAPIError
  | OtherError.

(** [isinstance(exc, SQLAlchemyError)]: the last three are subclasses. *)
Definition is_sqlalchemy_error (e : exn) : bool :=
  match e with
  | SQLAlchemyError | MultipleResultsFound | IntegrityError
  | DBAPIError => true
  | _ => false
  end.

Definition is_runtime_error (e : exn) : bool :=
  match e with RuntimeError => true | _ => false end.

Definition is_file_not_found (e : exn) : bool :=
  match e with FileNotFoundError => true | _ => false end.

(** Outcome of a call: a returned value or a propagating exception. *)
Inductive res (A : Type) : Type :=
  | Ok (a : A)
  | Raise (e : exn).
Arguments Ok {A} a.
Arguments Raise {A} e.

(** A call runs on a state [S]; the state it leaves is kept on both
    outcomes (what was committed before an exception stays committed). *)
Definition M (S A : Type) : Type := S -> S * res A.

Definition ret {S A} (a : A) : M S A := fun s => (s, Ok a).

Definition raise {S A} (e : exn) : M S A := fun s => (s, Raise e).

Definition bind {S A B} (m : M S A) (k : A -> M S B) : M S B :=
  fun s =>
    match m s with
    | (s', Ok a) => k a s'
    | (s', Raise e) => (s', Raise e)
    end.

Notation "'let*' x ':=' m 'in' k" := (bind m (fun x => k))
  (at level 10, x name, m at level 100, k at level 200).
Notation "'let*' ' p ':=' m 'in' k" :=
  (bind m (fun x => match x with p => k end))
  (at level 10, p pattern, m at level 100, k at level 200).

(** [try: m  except <classes matched by catches> as exc: handler exc]. *)
Definition try_except {S A} (m : M S A) (catches : exn -> bool)
    (handler : exn -> M S A) : M S A :=
  fun s =>
    match m s with
    | (s', Raise e) => if catches e then handler e s' else (s', Raise e)
    | r => r
    end.

(** [try: m  finally: fin], for a clean-up that does not raise. *)
Definition try_finally {S A} (m : M S A) (fin : S -> S) : M S A :=
  fun s => let '(s', r) := m s in (fin s', r).

(** Read the state. *)
Definition get_state {S} : M S S := fun s => (s, Ok s).

(** ** Bootstrap: [DBManager] (initializer.py) *)

(** What the manager talks to: the SQL Server instance reached through the
    two engines, and the Alembic migration engine.  A statement result is
    an [option]: [None] is a result object that tests false in
    [if not result]. *)
Class Backend (W : Type) : Type := {
  (** [engine(master).connect()] then [SELECT 1] *)
  execute_select_1 : M W unit;
  (** [SELECT 1 FROM sys.databases WHERE name = :db_name] on master:
      the first column of the rows returned *)
  execute_select_database : string -> M W (option (list value));
  (** [SELECT TABLE_NAME FROM INFORMATION_SCHEMA.TABLES ...] on the target
      database, schema dbo *)
  execute_select_tables : M W (option (list string));
  (** [command.upgrade(alembic_cfg, "head")] *)
  alembic_upgrade_head : M W unit;
  (** [Engine.dispose()], for the master ([true]) or target engine *)
  dispose : bool -> W -> W;
}.

(** The manager: its configured database name, which of the two lazily
    created engines exist, and the world behind them. *)
Record DBManager (W : Type) : Type := mkDBManager {
  db_name : string;
  master_engine : bool;
  target_engine : bool;
  world : W;
}.
Arguments mkDBManager {W} _ _ _ _.
Arguments db_name {W} _.
Arguments master_engine {W} _.
Arguments target_engine {W} _.
Arguments world {W} _.

Section Initializer.
Context {W : Type} `{Backend W}.

(** Run a backend call on the manager's world. *)
Definition on_world {A} (m : M W A) : M (DBManager W) A :=
  fun self =>
    let '(w, r) := m (world self) in
    (mkDBManager (db_name self) (master_engine self) (target_engine self) w, r).

(** [_get_engine]: create the engine on first use and cache it. *)
Definition _get_engine (is_master : bool) : M (DBManager W) unit :=
  fun self =>
    if is_master
    then (mkDBManager (db_name self) true (target_engine self) (world self), Ok tt)
    else (mkDBManager (db_name self) (master_engine self) true (world self), Ok tt).

Definition verify_conn : M (DBManager W) bool :=
  try_except
    (let* _ := _get_engine true in
     let* _ := on_world execute_select_1 in
     ret true)
    is_sqlalchemy_error
    (fun _ => ret false).

(** [result.scalar()]: first column of the first row, [None] without rows. *)
Definition scalar (rows : list value) : value :=
  match rows with
  | [] => VNone
  | v :: _ => v
  end.

Definition db_exists : M (DBManager W) bool :=
  try_except
    (let* _ := _get_engine true in
     let* self := get_state in
     let* result := on_world (execute_select_database (db_name self)) in
     match result with
     | None => ret false
     | Some rows => ret (negb (is_none (scalar rows)))
     end)
    is_sqlalchemy_error
    (fun _ => ret false).

Definition required_tables : list string :=
  [ "balance_sheet_items"; "income_statement_items";
    "cash_flow_statement_items"; "financial_reports" ].

Definition tables_exist : M (DBManager W) bool :=
  let* present := db_exists in
  if negb present then ret false
  else
    try_except
      (let* _ := _get_engine false in
       let* result := on_world execute_select_tables in
       match result with
       | None => ret false
       | Some existing_tables =>
           let missing_tables :=
             filter (fun t => t ∉ existing_tables) required_tables in
           match missing_tables with
           | _ :: _ => ret false
           | [] => ret true
           end
       end)
      is_sqlalchemy_error
      (fun _ => ret false).

Definition sync_tables : M (DBManager W) bool :=
  let* present := db_exists in
  if negb present then ret false
  else
    try_except
      (let* _ := on_world alembic_upgrade_head in
       ret true)
      (fun e => is_sqlalchemy_error e || is_runtime_error e
                || is_file_not_found e)
      (fun _ => ret false).

Definition cleanup (self : DBManager W) : DBManager W :=
  let w1 := if target_engine self then dispose false (world self)
            else world self in
  let w2 := if master_engine self then dispose true w1 else w1 in
  mkDBManager (db_name self) (master_engine self) (target_engine self) w2.

(** The second half of [initialize]: the final [tables_exist()] check. *)
Definition initialize_final_check : M (DBManager W) bool :=
  let* ready := tables_exist in
  if ready then ret true else ret false.

Definition initialize : M (DBManager W) bool :=
  try_finally
    (try_except
       (let* connected := verify_conn in
        if negb connected then raise RuntimeError
        else
          let* present := db_exists in
          if negb present then ret false
          else
            let* ready := tables_exist in
            if negb ready then
              let* synced := sync_tables in
              if negb synced then ret false
              else initialize_final_check
            else
              let* synced := sync_tables in
              (* a failed sync only logs a warning here *)
              initialize_final_check)
       (fun e => is_sqlalchemy_error e || is_runtime_error e)
       (fun _ => ret false))
    cleanup.
End Initializer.

(** ** Report repository: [ReportRepository] (repositories/report.py) *)

(** [str.lower()] on the ASCII range, which is where ticker symbols live. *)
Definition lower_ascii (c : ascii) : ascii :=
  let n := nat_of_ascii c in
  if ((65 <=? n)%nat && (n <=? 90)%nat)%bool then ascii_of_nat (n + 32) else c.

Fixpoint lower (s : string) : string :=
  match s with
  | EmptyString => EmptyString
  | String c rest => String (lower_ascii c) (lower rest)
  end.

(** [symbol.lower()] on a Python value: only [str] has the method. *)
Definition str_lower {S} (symbol : value) : M S value :=
  match symbol with
  | VStr s => ret (VStr (lower s))
  | _ => raise AttributeError
  end.

(** A [FinancialReport] object is the mapping from its column attributes to
    their values; an attribute that was never set reads [None].  The class
    is declared over [Base = declarative_base(...)] (database.py), whose
    constructor and attributes are the plain declarative ones. *)
Abbreviation FinancialReport := (gmap string value).

Definition getattr (report : FinancialReport) (key : string) : value :=
  default VNone (report !! key).

(** The repository names five columns of the model class
    [backend.database.models.FinancialReport]: [id] and the business key.
    Which further (content) columns the class declares is a parameter.
    [hasattr] is asked for column names only; other attributes of a mapped
    class are not modelled. *)
Class Schema : Type := { content_column : string -> bool }.

Definition key_columns : list string :=
  [ "id"; "symbol"; "report_type"; "report_year"; "report_quarter" ].

Definition hasattr `{Schema} (key : string) : bool :=
  bool_decide (key ∈ key_columns) || content_column key.

(** The session's view of the database: the committed rows of table
    [financial_reports] in insertion order, and the next value of the
    identity column. *)
Record Session : Type := mkSession {
  financial_reports : list FinancialReport;
  identity : Z;
}.

(** [column == param] as SQLAlchemy renders it: [column IS NULL] for a
    [None] parameter, [column = param] otherwise; the latter is never true
    of a NULL column and compares strings exactly. *)
Definition sql_eq (column param : value) : bool :=
  match param with
  | VNone => is_none column
  | _ => negb (is_none column) && bool_decide (column = param)
  end.

Definition primary_keys (table : list FinancialReport) : list value :=
  (fun r => getattr r "id") <$> table.

(** [select(FinancialReport).where(p)], executed. *)
Definition select_where (p : FinancialReport -> bool)
    : M Session (list FinancialReport) :=
  fun σ => (σ, Ok (List.filter p (financial_reports σ))).

(** [Result.scalar_one_or_none()]. *)
Definition scalar_one_or_none {S A} (rows : list A) : M S (option A) :=
  match rows with
  | [] => ret None
  | [r] => ret (Some r)
  | _ => raise MultipleResultsFound
  end.

(** [session.add(report); session.commit(); session.refresh(report)]: the
    INSERT assigns the identity value unless the object carries an [id];
    the primary key must be an unused integer. *)
Definition insert_commit (report : FinancialReport)
    : M Session FinancialReport :=
  fun σ =>
    match getattr report "id" with
    | VNone =>
        let stored := <["id" := VInt (identity σ)]> report in
        if bool_decide (VInt (identity σ) ∈ primary_keys (financial_reports σ))
        then (σ, Raise IntegrityError)
        else (mkSession (financial_reports σ ++ [stored]) (identity σ + 1),
              Ok stored)
    | VInt n =>
        if bool_decide (VInt n ∈ primary_keys (financial_reports σ))
        then (σ, Raise IntegrityError)
        else (mkSession (financial_reports σ ++ [report])
                        (Z.max (identity σ) (n + 1)),
              Ok report)
    | VStr _ => (σ, Raise DBAPIError)
    end.

(** Modelled from the spec: the model class
    [backend.database.models.FinancialReport] is not under src/.  The spec
    has its [id] "assigned by the store", and the repository reads it back
    after every insert ([session.refresh], [return_defaults=True]): an
    identity column.  [Settings.get_db_url] builds a URL for SQL Server
    only, and SQL Server refuses an UPDATE that sets an identity column
    to another value; an UPDATE of a row whose [id] attribute is what it
    was does not name the column. *)
Definition identity_update_refused (old_id new_id : value) : bool :=
  negb (bool_decide (new_id = old_id)).

(** [session.commit(); session.refresh(report)] after attribute
    assignments on the persistent object loaded with primary key
    [old_id]: the UPDATE rewrites that row.  It fails, and nothing is
    committed, when the object no longer carries an integer id or
    carries another id than the row has. *)
Definition update_commit (old_id : value) (report : FinancialReport)
    : M Session FinancialReport :=
  fun σ =>
    match getattr report "id" with
    | VNone => (σ, Raise IntegrityError)
    | VStr _ => (σ, Raise DBAPIError)
    | VInt n =>
        if identity_update_refused old_id (VInt n)
        then (σ, Raise DBAPIError)
        else
          (mkSession
             ((fun r => if bool_decide (getattr r "id" = old_id)
                        then report else r) <$> financial_reports σ)
             (identity σ),
           Ok report)
    end.

(** [delete(FinancialReport).where(p)], executed and committed; the
    result is [rowcount]. *)
Definition delete_where (p : FinancialReport -> bool) : M Session Z :=
  fun σ =>
    (mkSession (List.filter (fun r => negb (p r)) (financial_reports σ))
               (identity σ),
     Ok (Z.of_nat (List.length (List.filter p (financial_reports σ))))).

(** [ORDER BY]: NULL sorts lowest (SQL Server), integers numerically,
    strings by code point. *)
Inductive direction : Type := Asc | Desc.

Definition value_leb (a b : value) : bool :=
  match a, b with
  | VNone, _ => true
  | _, VNone => false
  | VInt x, VInt y => (x <=? y)%Z
  | VInt _, VStr _ => true
  | VStr _, VInt _ => false
  | VStr x, VStr y => String.leb x y
  end.

Fixpoint order_by_leb (clause : list (string * direction))
    (r1 r2 : FinancialReport) : bool :=
  match clause with
  | [] => true
  | (column, dir) :: rest =>
      let a := getattr r1 column in
      let b := getattr r2 column in
      if bool_decide (a = b) then order_by_leb rest r1 r2
      else match dir with
           | Asc => value_leb a b
           | Desc => value_leb b a
           end
  end.

Definition order_by (clause : list (string * direction))
    (rows : list FinancialReport) : list FinancialReport :=
  merge_sort (fun r1 r2 => Is_true (order_by_leb clause r1 r2)) rows.

(** Python truthiness of an [Optional[int]] in [if offset:]. *)
Definition truthy (n : option Z) : bool :=
  match n with
  | None => false
  | Some k => negb (k =? 0)%Z
  end.

(** [stmt.offset(n)] and [stmt.limit(n)]: the server rejects a negative
    row count. *)
Definition apply_offset {S} (n : Z) (rows : list FinancialReport)
    : M S (list FinancialReport) :=
  if (n <? 0)%Z then raise DBAPIError else ret (drop (Z.to_nat n) rows).

Definition apply_limit {S} (n : Z) (rows : list FinancialReport)
    : M S (list FinancialReport) :=
  if (n <? 0)%Z then raise DBAPIError else ret (take (Z.to_nat n) rows).

(** The result of [upsert_bulk]: the dict with keys created, updated, total. *)
Record BulkStats : Type := mkBulkStats {
  created : Z;
  updated : Z;
  total : Z;
}.

Section ReportRepository.
Context `{Schema}.

(** The constructor call of [FinancialReport] with the payload as keyword
    arguments: the declarative constructor rejects a keyword that is not
    an attribute of the class and otherwise sets each attribute to the
    value given. *)
Definition new_FinancialReport (data : gmap string value)
    : M Session FinancialReport :=
  if bool_decide (map_Forall (fun key _ => Is_true (hasattr key)) data)
  then ret data
  else raise TypeError.

(** [for key, value in data.items(): if guard(key): setattr(report, key,
    value)] — the loop shared by [update] and [upsert]. *)
Definition setattr_items (guard : string -> bool)
    (data : gmap string value) (report : FinancialReport)
    : FinancialReport :=
  map_fold
    (fun key v acc => if guard key then <[key := v]> acc else acc)
    report data.

(** [report_data[key]]. *)
Definition subscript {S} (data : gmap string value) (key : string)
    : M S value :=
  match data !! key with
  | Some v => ret v
  | None => raise (KeyError key)
  end.

Definition add (report_data : gmap string value)
    : M Session FinancialReport :=
  let* report := new_FinancialReport report_data in
  insert_commit report.

(** [bulk_save_objects(reports, return_defaults=True)]: one INSERT per
    object inside the open transaction. *)
Fixpoint bulk_save_objects (reports : list FinancialReport)
    : M Session (list FinancialReport) :=
  match reports with
  | [] => ret []
  | report :: rest =>
      let* stored := insert_commit report in
      let* others := bulk_save_objects rest in
      ret (stored :: others)
  end.

Fixpoint construct_all (reports_data : list (gmap string value))
    : M Session (list FinancialReport) :=
  match reports_data with
  | [] => ret []
  | data :: rest =>
      let* report := new_FinancialReport data in
      let* others := construct_all rest in
      ret (report :: others)
  end.

(** The single [commit()] comes last: when an INSERT of the batch fails
    nothing of it is committed. *)
Definition add_bulk (reports_data : list (gmap string value))
    : M Session (list FinancialReport) :=
  let* reports := construct_all reports_data in
  fun σ =>
    match bulk_save_objects reports σ with
    | (σ', Ok stored) => (σ', Ok stored)
    | (_, Raise e) => (σ, Raise e)
    end.

Definition get_by_id (report_id : Z) : M Session (option FinancialReport) :=
  let* rows :=
    select_where (fun r => sql_eq (getattr r "id") (VInt report_id)) in
  scalar_one_or_none rows.

Definition get_by_symbol (symbol : value)
    : M Session (list FinancialReport) :=
  let* lowered := str_lower symbol in
  select_where (fun r => sql_eq (getattr r "symbol") lowered).

Definition find_duplicate
    (symbol report_type report_year report_quarter : value)
    : M Session (option FinancialReport) :=
  let* lowered := str_lower symbol in
  let stmt := fun r =>
    sql_eq (getattr r "symbol") lowered
    && sql_eq (getattr r "report_type") report_type
    && sql_eq (getattr r "report_year") report_year in
  let stmt :=
    if negb (is_none report_quarter)
    then fun r => stmt r && sql_eq (getattr r "report_quarter") report_quarter
    else fun r => stmt r && is_none (getattr r "report_quarter") in
  let* rows := select_where stmt in
  scalar_one_or_none rows.

Definition update (report_id : Z) (update_data : gmap string value)
    : M Session (option FinancialReport) :=
  let* report := get_by_id report_id in
  match report with
  | Some report =>
      let modified := setattr_items hasattr update_data report in
      let* refreshed := update_commit (getattr report "id") modified in
      ret (Some refreshed)
  | None => ret None
  end.

Definition upsert (report_data : gmap string value)
    : M Session (FinancialReport * bool) :=
  let* symbol := subscript report_data "symbol" in
  let* report_type := subscript report_data "report_type" in
  let* report_year := subscript report_data "report_year" in
  let report_quarter := getattr report_data "report_quarter" in
  let* existing :=
    find_duplicate symbol report_type report_year report_quarter in
  match existing with
  | Some existing =>
      let modified :=
        setattr_items
          (fun key => hasattr key && negb (String.eqb key "id"))
          report_data existing in
      let* refreshed := update_commit (getattr existing "id") modified in
      ret (refreshed, false)
  | None =>
      let* new_report := new_FinancialReport report_data in
      let* refreshed := insert_commit new_report in
      ret (refreshed, true)
  end.

Fixpoint upsert_bulk_loop (reports_data : list (gmap string value))
    (created_count updated_count : Z) : M Session (Z * Z) :=
  match reports_data with
  | [] => ret (created_count, updated_count)
  | report_data :: rest =>
      let* '(_, was_created) := upsert report_data in
      if (was_created : bool)
      then upsert_bulk_loop rest (created_count + 1) updated_count
      else upsert_bulk_loop rest created_count (updated_count + 1)
  end.

Definition upsert_bulk (reports_data : list (gmap string value))
    : M Session BulkStats :=
  let* '(created_count, updated_count) :=
    upsert_bulk_loop reports_data 0 0 in
  ret (mkBulkStats created_count updated_count
         (Z.of_nat (List.length reports_data))).

Definition delete (report_id : Z) : M Session bool :=
  let* report := get_by_id report_id in
  match report with
  | Some report =>
      let* _ :=
        delete_where
          (fun r => bool_decide (getattr r "id" = getattr report "id")) in
      ret true
  | None => ret false
  end.

Definition delete_by_symbol (symbol : value) : M Session Z :=
  let* lowered := str_lower symbol in
  delete_where (fun r => sql_eq (getattr r "symbol") lowered).

Definition get_all_order : list (string * direction) :=
  [ ("symbol", Asc); ("report_year", Desc); ("report_quarter", Asc) ].

Definition get_all (limit offset : option Z)
    : M Session (list FinancialReport) :=
  let* rows := select_where (fun _ => true) in
  let rows := order_by get_all_order rows in
  let* rows :=
    if truthy offset then apply_offset (default 0 offset) rows
    else ret rows in
  if truthy limit then apply_limit (default 0 limit) rows
  else ret rows.

Definition count : M Session Z :=
  let* rows := select_where (fun _ => true) in
  ret (Z.of_nat (List.length rows)).

Definition count_by_symbol (symbol : value) : M Session Z :=
  let* lowered := str_lower symbol in
  let* rows := select_where (fun r => sql_eq (getattr r "symbol") lowered) in
  ret (Z.of_nat (List.length rows)).
End ReportRepository.

(** ** Concrete instances used in the examples *)

(** A server whose pending Alembic revisions either create tables or
    fail; a revision that fails leaves the earlier ones applied. *)
Inductive revision : Type :=
  | CreateTables (names : list string)
  | Broken (e : exn).

Record Server : Type := mkServer {
  reachable : bool;
  databases : list string;
  dbo_tables : list string;
  pending : list revision;
}.

Fixpoint run_revisions (revs : list revision) (tables : list string)
    : list string * list revision * res unit :=
  match revs with
  | [] => (tables, [], Ok tt)
  | CreateTables names :: rest => run_revisions rest (tables ++ names)
  | Broken e :: rest => (tables, Broken e :: rest, Raise e)
  end.

#[global] Instance Server_backend : Backend Server := {
  execute_select_1 := fun w =>
    if reachable w then (w, Ok tt) else (w, Raise SQLAlchemyError);
  execute_select_database := fun name w =>
    if reachable w
    then (w, Ok (Some (if bool_decide (name ∈ databases w)
                       then [VInt 1] else [])))
    else (w, Raise SQLAlchemyError);
  execute_select_tables := fun w =>
    if reachable w then (w, Ok (Some (dbo_tables w)))
    else (w, Raise SQLAlchemyError);
  alembic_upgrade_head := fun w =>
    if reachable w
    then
      let '(tables, revs, r) := run_revisions (pending w) (dbo_tables w) in
      (mkServer (reachable w) (databases w) tables revs, r)
    else (w, Raise SQLAlchemyError);
  dispose := fun _ w => w;
}.

Definition fresh_manager (w : Server) : DBManager Server :=
  mkDBManager "huper" false false w.

(** A schema with a single content column. *)
Definition example_schema : Schema :=
  {| content_column := fun key => String.eqb key "content" |}.

Definition empty_session : Session := mkSession [] 1.

(** A server that cannot be reached. *)
Definition unreachable_server : Server := mkServer false ["huper"] [] [].

(** All tables are there, and the one pending revision fails. *)
Definition server_with_broken_revision : Server :=
  mkServer true ["huper"] required_tables [Broken RuntimeError].

(** No tables yet; the first pending revision creates them and the second
    fails. *)
Definition server_with_partial_migration : Server :=
  mkServer true ["huper"] [] [CreateTables required_tables; Broken RuntimeError].

Definition manager_connected (w : Server) : DBManager Server :=
  mkDBManager "huper" true false w.

Definition manager_with_engines (w : Server) : DBManager Server :=
  mkDBManager "huper" true true w.

(** ** Vocabulary of the specification *)

(** The business key of a report: symbol, type, year, quarter. *)
Record BusinessKey : Type := mkKey {
  key_symbol : value;
  key_type : value;
  key_year : value;
  key_quarter : value;
}.

#[global] Instance BusinessKey_eq_dec : EqDecision BusinessKey.
Proof. solve_decision. Defined.

Definition business_key (report : FinancialReport) : BusinessKey :=
  mkKey (getattr report "symbol") (getattr report "report_type")
        (getattr report "report_year") (getattr report "report_quarter").

Definition has_key (k : BusinessKey) (report : FinancialReport) : bool :=
  bool_decide (business_key report = k).

(** A payload carries the key [k]: it has the three mandatory entries, and
    its optional quarter reads as the quarter of [k]. *)
Definition carries_key (data : gmap string value) (k : BusinessKey) : Prop :=
  data !! "symbol" = Some (key_symbol k)
  /\ data !! "report_type" = Some (key_type k)
  /\ data !! "report_year" = Some (key_year k)
  /\ getattr data "report_quarter" = key_quarter k.

(** The stored symbol is exactly the string [s]. *)
Definition symbol_is (s : string) (report : FinancialReport) : bool :=
  bool_decide (getattr report "symbol" = VStr s).

(** The order of column values, and the order on reports the
    specification gives for [get_all]: symbol ascending, then year
    descending, then quarter ascending. *)
Definition value_le (a b : value) : Prop := Is_true (value_leb a b).

Definition value_lt (a b : value) : Prop := value_le a b /\ a <> b.

Definition report_order (r1 r2 : FinancialReport) : Prop :=
  value_lt (getattr r1 "symbol") (getattr r2 "symbol")
  \/ (getattr r1 "symbol" = getattr r2 "symbol"
      /\ (value_lt (getattr r2 "report_year") (getattr r1 "report_year")
          \/ (getattr r1 "report_year" = getattr r2 "report_year"
              /\ value_le (getattr r1 "report_quarter")
                          (getattr r2 "report_quarter")))).

(** The guard of the assignment loop in [upsert]: an attribute of the
    entity other than [id]. *)
Definition upsert_guard `{Schema} (key : string) : bool :=
  hasattr key && negb (String.eqb key "id").

(** The items are upserted one after the other, every call returning:
    the store each call leaves is the store the next one starts from, and
    [cs] collects the [created] flags. *)
Inductive upserts_in_turn `{Schema}
    : list (gmap string value) -> Session -> Session -> list bool -> Prop :=
  | upserts_nil σ : upserts_in_turn [] σ σ []
  | upserts_cons data rest σ σ1 σ2 r c cs :
      upsert data σ = (σ1, Ok (r, c)) ->
      upserts_in_turn rest σ1 σ2 cs ->
      upserts_in_turn (data :: rest) σ σ2 (c :: cs).

Definition count_created (cs : list bool) : Z :=
  Z.of_nat (List.length (List.filter (fun c => c) cs)).

Definition count_updated (cs : list bool) : Z :=
  Z.of_nat (List.length (List.filter negb cs)).

(** ** Example reports *)

Definition annual_report (symbol : string) (year : Z) (content : string)
    : gmap string value :=
  {[ "symbol" := VStr symbol; "report_type" := VStr "annual";
     "report_year" := VInt year; "content" := VStr content ]}.

Definition quarterly_report (symbol : string) (year quarter : Z)
    (content : string) : gmap string value :=
  <["report_type" := VStr "quarterly"]>
    (<["report_quarter" := VInt quarter]> (annual_report symbol year content)).

(** A payload as stored under the primary key [n]. *)
Definition stored_as (n : Z) (data : gmap string value) : FinancialReport :=
  <["id" := VInt n]> data.

(** A payload without the mandatory symbol entry. *)
Definition payload_without_symbol : gmap string value :=
  {[ "report_type" := VStr "annual"; "report_year" := VInt 2023 ]}.

(** The fixtures of the ordering example: (A,2022,Q2), (A,2023,None),
    (A,2022,Q1), stored in this order. *)
Definition report_A_2022_Q2 : FinancialReport :=
  <["id" := VInt 1]> (quarterly_report "A" 2022 2 "q2").

Definition report_A_2023 : FinancialReport :=
  <["id" := VInt 2]> (annual_report "A" 2023 "fy").

Definition report_A_2022_Q1 : FinancialReport :=
  <["id" := VInt 3]> (quarterly_report "A" 2022 1 "q1").

Definition ordering_fixture : Session :=
  mkSession [report_A_2022_Q2; report_A_2023; report_A_2022_Q1] 4.

(** ** Bootstrap: database creation and table listing *)

(** The two statements of [DBManager] that the bootstrap sequence itself
    does not issue. *)
Class BackendAdmin (W : Type) : Type := {
  (** [CREATE DATABASE [db_name]] and [commit()] on the master engine *)
  execute_create_database : string -> M W unit;
  (** [SELECT TABLE_NAME FROM INFORMATION_SCHEMA.TABLES WHERE TABLE_TYPE =
      'BASE TABLE' ORDER BY TABLE_NAME] on the target database *)
  execute_select_table_names : M W (option (list string));
}.

Section InitializerAdmin.
Context {W : Type} `{Backend W} `{BackendAdmin W}.

Definition create_db : M (DBManager W) bool :=
  let* present := db_exists in
  if present then ret true
  else
    try_except
      (let* _ := _get_engine true in
       let* self := get_state in
       let* _ := on_world (execute_create_database (db_name self)) in
       ret true)
      is_sqlalchemy_error
      (fun _ => ret false).

Definition list_tables : M (DBManager W) (list string) :=
  let* present := db_exists in
  if negb present then ret []
  else
    try_except
      (let* _ := _get_engine false in
       let* result := on_world execute_select_table_names in
       match result with
       | None => ret []
       | Some tables => ret tables
       end)
      is_sqlalchemy_error
      (fun _ => ret []).
End InitializerAdmin.

(** The example server creates a database unless the name is taken, and
    lists its tables by name. *)
#[global] Instance Server_admin : BackendAdmin Server := {
  execute_create_database := fun name w =>
    if reachable w
    then
      if bool_decide (name ∈ databases w) then (w, Raise SQLAlchemyError)
      else (mkServer (reachable w) (databases w ++ [name]) (dbo_tables w)
              (pending w), Ok tt)
    else (w, Raise SQLAlchemyError);
  execute_select_table_names := fun w =>
    if reachable w
    then (w, Ok (Some (merge_sort (fun a b => Is_true (String.leb a b))
                         (dbo_tables w))))
    else (w, Raise SQLAlchemyError);
}.

(** A reachable server on which the target database is yet to be created. *)
Definition server_without_database : Server := mkServer true ["master"] [] [].

(** The only pending revision raises an error of a class that no handler
    of the manager names. *)
Definition server_with_foreign_error : Server :=
  mkServer true ["huper"] required_tables [Broken OtherError].

(** ** Example stores *)

Definition session_abc : Session :=
  mkSession [stored_as 1 (annual_report "abc" 2023 "first")] 2.

Definition session_mixed : Session :=
  mkSession [ stored_as 1 (annual_report "abc" 2023 "first");
              stored_as 2 (annual_report "xyz" 2023 "other");
              stored_as 3 (quarterly_report "abc" 2023 1 "q1") ] 4.

(** Two records with one business key, as two racing inserts leave them
    when the table has no uniqueness constraint. *)
Definition session_ambiguous : Session :=
  mkSession [ stored_as 1 (annual_report "abc" 2023 "first");
              stored_as 2 (annual_report "abc" 2023 "again") ] 3.

(** No tables yet; the one pending revision creates them. *)
Definition server_with_pending_migration : Server :=
  mkServer true ["huper"] [] [CreateTables required_tables].

(** ** Further vocabulary *)

(** The outcome is not an exception of a class in [classes]. *)
Definition never_raises {A} (classes : exn -> bool) (r : res A) : Prop :=
  match r with
  | Ok _ => True
  | Raise e => classes e = false
  end.

(** The primary keys of the stored records are pairwise different. *)
Definition unique_ids (σ : Session) : Prop :=
  NoDup (primary_keys (financial_reports σ)).

(** The entries that [upsert] reads with a subscript. *)
Definition mandatory_keys : list string :=
  [ "symbol"; "report_type"; "report_year" ].

(** The number of stored records. *)
Definition stored_count (σ : Session) : Z :=
  Z.of_nat (List.length (financial_reports σ)).

(** ** The repository under a collation *)

(** Whether a string column equals a parameter is decided by the server,
    under the collation of the column: two strings are equal when the
    collation gives them the same key.  The lookup and the upsert are
    given here for any collation; [find_duplicate] and [upsert] above are
    their instances at the binary collation. *)
Class Collation : Type := { collation_key : string -> string }.

(** Exact comparison. *)
Definition binary_collation : Collation :=
  {| collation_key := fun s => s |}.

(** Comparison that ignores letter case, as the default collation of SQL
    Server does. *)
Definition case_insensitive_collation : Collation :=
  {| collation_key := lower |}.

Definition collated `{Collation} (v : value) : value :=
  match v with
  | VStr s => VStr (collation_key s)
  | _ => v
  end.

(** [column == param] under the collation. *)
Definition sql_eq_under `{Collation} (column param : value) : bool :=
  sql_eq (collated column) (collated param).

Section CollatedRepository.
Context `{Collation} `{Schema}.

(** [find_duplicate], every [column == param] under the collation. *)
Definition find_duplicate_under
    (symbol report_type report_year report_quarter : value)
    : M Session (option FinancialReport) :=
  let* lowered := str_lower symbol in
  let stmt := fun r =>
    sql_eq_under (getattr r "symbol") lowered
    && sql_eq_under (getattr r "report_type") report_type
    && sql_eq_under (getattr r "report_year") report_year in
  let stmt :=
    if negb (is_none report_quarter)
    then fun r =>
           stmt r && sql_eq_under (getattr r "report_quarter") report_quarter
    else fun r => stmt r && is_none (getattr r "report_quarter") in
  let* rows := select_where stmt in
  scalar_one_or_none rows.

(** [upsert] over that lookup. *)
Definition upsert_under (report_data : gmap string value)
    : M Session (FinancialReport * bool) :=
  let* symbol := subscript report_data "symbol" in
  let* report_type := subscript report_data "report_type" in
  let* report_year := subscript report_data "report_year" in
  let report_quarter := getattr report_data "report_quarter" in
  let* existing :=
    find_duplicate_under symbol report_type report_year report_quarter in
  match existing with
  | Some existing =>
      let modified :=
        setattr_items
          (fun key => hasattr key && negb (String.eqb key "id"))
          report_data existing in
      let* refreshed := update_commit (getattr existing "id") modified in
      ret (refreshed, false)
  | None =>
      let* new_report := new_FinancialReport report_data in
      let* refreshed := insert_commit new_report in
      ret (refreshed, true)
  end.
End CollatedRepository.

(** A business key as the collation sees it, and the records that have
    the key [k] under the collation. *)
Definition key_under `{Collation} (k : BusinessKey) : BusinessKey :=
  mkKey (collated (key_symbol k)) (collated (key_type k))
        (collated (key_year k)) (collated (key_quarter k)).

Definition has_key_under `{Collation} (k : BusinessKey)
    (report : FinancialReport) : bool :=
  bool_decide (key_under (business_key report) = key_under k).

(** A payload with an entry "ticker", which the example schema does not
    have, and one that names no content. *)
Definition report_with_ticker : gmap string value :=
  <["ticker" := VStr "abc"]> (annual_report "abc" 2023 "first").

Definition report_without_content : gmap string value :=
  {[ "symbol" := VStr "abc"; "report_type" := VStr "annual";
     "report_year" := VInt 2023 ]}.

(** * Properties *)

(** Close a closed equation by evaluation. *)
Ltac by_evaluation :=
  lazymatch goal with
  | |- @eq ?T _ ?y => vm_cast_no_check (@eq_refl T y)
  end.

(** ** The monad *)

Lemma bind_ok {S A B} (m : M S A) (k : A -> M S B) s s' a :
  m s = (s', Ok a) -> bind m k s = k a s'.
Proof. intros Hm. unfold bind. by rewrite Hm. Qed.

Lemma bind_raise {S A B} (m : M S A) (k : A -> M S B) s s' e :
  m s = (s', Raise e) -> bind m k s = (s', Raise e).
Proof. intros Hm. unfold bind. by rewrite Hm. Qed.

Lemma bind_inv_ok {S A B} (m : M S A) (k : A -> M S B) s s2 b :
  bind m k s = (s2, Ok b) ->
  exists s1 a, m s = (s1, Ok a) /\ k a s1 = (s2, Ok b).
Proof.
  unfold bind. destruct (m s) as [s1 [a|e]]; [eauto | discriminate].
Qed.

(** ** Bootstrap *)

Section InitializerFacts.
Context {W : Type} `{Backend W}.

(** The body of [initialize] once the connectivity check has passed and
    the database was found: the table check, the synchronization and
    the final table check. *)
Lemma initialize_after_checks (self0 self1 self2 : DBManager W) :
  verify_conn self0 = (self1, Ok true) ->
  db_exists self1 = (self2, Ok true) ->
  initialize self0 =
    try_finally
      (try_except
         (let* ready := tables_exist in
          if negb ready then
            let* synced := sync_tables in
            if negb synced then ret false else initialize_final_check
          else
            let* synced := sync_tables in initialize_final_check)
         (fun e => is_sqlalchemy_error e || is_runtime_error e)
         (fun _ => ret false))
      cleanup self2.
Proof.
  intros Hconn Hdb.
  unfold initialize, try_finally, try_except.
  rewrite (bind_ok _ _ _ _ _ Hconn). cbn [negb].
  rewrite (bind_ok _ _ _ _ _ Hdb). cbn [negb].
  reflexivity.
Qed.

(** C3 (as the code has it): when [verify_conn()] returns false,
    [initialize()] runs no further step; the [RuntimeError] it raises is
    caught by its own handler, so the call returns [False] after the
    clean-up, and nothing propagates to the caller. *)
Theorem initialize_conn_failure_returns_false (self self' : DBManager W) :
  verify_conn self = (self', Ok false) ->
  initialize self = (cleanup self', Ok false).
Proof.
  intros Hconn.
  unfold initialize, try_finally, try_except.
  rewrite (bind_ok _ _ _ _ _ Hconn). reflexivity.
Qed.

(** C4 (as the code has it): with connectivity and database checks
    passed and the tables present, a failed [sync_tables()] does not
    abort and does not decide the result: [initialize()] returns what
    the final [tables_exist()] check returns. *)
Theorem initialize_tolerates_sync_failure
    (self0 self1 self2 self3 self4 self5 : DBManager W) (ready : bool) :
  verify_conn self0 = (self1, Ok true) ->
  db_exists self1 = (self2, Ok true) ->
  tables_exist self2 = (self3, Ok true) ->
  sync_tables self3 = (self4, Ok false) ->
  tables_exist self4 = (self5, Ok ready) ->
  initialize self0 = (cleanup self5, Ok ready).
Proof.
  intros Hconn Hdb Ht0 Hsync Ht1.
  rewrite (initialize_after_checks _ _ _ Hconn Hdb).
  unfold try_finally, try_except, initialize_final_check.
  rewrite (bind_ok _ _ _ _ _ Ht0). cbn [negb].
  rewrite (bind_ok _ _ _ _ _ Hsync).
  rewrite (bind_ok _ _ _ _ _ Ht1).
  by destruct ready.
Qed.

End InitializerFacts.

(** The three bootstrap results on concrete servers. *)
Lemma initialize_conn_failure_witness :
  verify_conn (fresh_manager unreachable_server)
    = (manager_connected unreachable_server, Ok false)
  /\ initialize (fresh_manager unreachable_server)
    = (cleanup (manager_connected unreachable_server), Ok false).
Proof.
  split; [reflexivity |].
  apply initialize_conn_failure_returns_false. reflexivity.
Defined.

(** C3 as stated fails: the connectivity check fails on an unreachable
    server, and [initialize()] returns [False]; no exception leaves it. *)
Lemma initialize_conn_failure_not_raised :
  snd (verify_conn (fresh_manager unreachable_server)) = Ok false
  /\ snd (initialize (fresh_manager unreachable_server)) = Ok false
  /\ forall e, snd (initialize (fresh_manager unreachable_server)) <> Raise e.
Proof. repeat split; [reflexivity.. | intros e; vm_compute; discriminate]. Qed.

(** All tables present and a failing revision. *)
Lemma initialize_tolerates_sync_failure_witness :
  let w := server_with_broken_revision in
  verify_conn (fresh_manager w) = (manager_connected w, Ok true)
  /\ db_exists (manager_connected w) = (manager_connected w, Ok true)
  /\ tables_exist (manager_connected w) = (manager_with_engines w, Ok true)
  /\ sync_tables (manager_with_engines w) = (manager_with_engines w, Ok false)
  /\ tables_exist (manager_with_engines w) = (manager_with_engines w, Ok true)
  /\ initialize (fresh_manager w) = (cleanup (manager_with_engines w), Ok true).
Proof.
  intros w. repeat (split; [reflexivity |]).
  apply (initialize_tolerates_sync_failure (fresh_manager w)
           (manager_connected w) (manager_connected w)
           (manager_with_engines w) (manager_with_engines w)
           (manager_with_engines w) true); reflexivity.
Defined.

(** C4 as stated fails: every check passes, the tables exist, the
    synchronization fails, and [initialize()] returns [True]. *)
Lemma initialize_true_despite_sync_failure :
  let w := server_with_broken_revision in
  verify_conn (fresh_manager w) = (manager_connected w, Ok true)
  /\ db_exists (manager_connected w) = (manager_connected w, Ok true)
  /\ tables_exist (manager_connected w) = (manager_with_engines w, Ok true)
  /\ sync_tables (manager_with_engines w) = (manager_with_engines w, Ok false)
  /\ snd (initialize (fresh_manager w)) = Ok true.
Proof. intros w. repeat split; reflexivity. Qed.

(** ** Report repository *)

Lemma lower_ascii_idemp c : lower_ascii (lower_ascii c) = lower_ascii c.
Proof. destruct c as [[] [] [] [] [] [] [] []]; reflexivity. Qed.

Lemma lower_idemp s : lower (lower s) = lower s.
Proof.
  induction s as [|c s IH]; [reflexivity |].
  cbn [lower]. by rewrite lower_ascii_idemp, IH.
Qed.

(** SQL equality against a bound parameter decides equality of values. *)
Lemma sql_eq_decide column param :
  sql_eq column param = bool_decide (column = param).
Proof.
  destruct param, column; cbn; try reflexivity;
    repeat case_bool_decide; try reflexivity; congruence.
Qed.

Lemma getattr_insert_eq (report : FinancialReport) key v :
  getattr (<[key := v]> report) key = v.
Proof. unfold getattr. by rewrite lookup_insert_eq. Qed.

(** What the attribute-assignment loop leaves in each attribute. *)
Lemma setattr_items_lookup guard (data : gmap string value)
    (report : FinancialReport) key :
  setattr_items guard data report !! key =
    if guard key
    then match data !! key with Some v => Some v | None => report !! key end
    else report !! key.
Proof.
  revert key. unfold setattr_items.
  apply (map_fold_weak_ind
           (fun (acc : gmap string value) (m : gmap string value) =>
              forall key, acc !! key =
                if guard key
                then match m !! key with
                     | Some v => Some v
                     | None => report !! key
                     end
                else report !! key)).
  - intros key. rewrite lookup_empty. by destruct (guard key).
  - intros i x m acc Hi IH key.
    destruct (decide (i = key)) as [->|Hne].
    + destruct (guard key) eqn:Hg.
      * by rewrite !lookup_insert_eq.
      * specialize (IH key). by rewrite Hg in IH.
    + rewrite (lookup_insert_ne m) by done.
      destruct (guard i); [rewrite lookup_insert_ne by done |]; apply IH.
Qed.

Lemma setattr_items_getattr_set guard (data : gmap string value)
    (report : FinancialReport) key v :
  guard key = true -> data !! key = Some v ->
  getattr (setattr_items guard data report) key = v.
Proof.
  intros Hg Hd. unfold getattr.
  by rewrite setattr_items_lookup, Hg, Hd.
Qed.

Lemma setattr_items_getattr_keep guard (data : gmap string value)
    (report : FinancialReport) key :
  guard key = false \/ data !! key = None ->
  getattr (setattr_items guard data report) key = getattr report key.
Proof.
  intros Hcase. unfold getattr. rewrite setattr_items_lookup.
  destruct (guard key); [| reflexivity].
  destruct Hcase as [?|Hd]; [discriminate |]. by rewrite Hd.
Qed.

Lemma filter_ext_bool {A} (p q : A -> bool) (l : list A) :
  (forall x, p x = q x) -> List.filter p l = List.filter q l.
Proof. intros Hpq. induction l as [|x l IH]; cbn; [done |]. by rewrite Hpq, IH. Qed.

(** [find_duplicate] selects by business key, with the symbol argument
    lowered, and asks for at most one row. *)
Lemma find_duplicate_spec (s : string) ty yr q σ :
  find_duplicate (VStr s) ty yr q σ =
    scalar_one_or_none
      (List.filter (has_key (mkKey (VStr (lower s)) ty yr q))
                   (financial_reports σ)) σ.
Proof.
  unfold find_duplicate, bind, select_where. cbn [str_lower ret].
  f_equal. apply filter_ext_bool. intros r.
  unfold has_key, business_key.
  destruct q; cbn [is_none negb]; rewrite ?sql_eq_decide;
    destruct (getattr r "symbol"), (getattr r "report_type"),
      (getattr r "report_year"), (getattr r "report_quarter");
    cbn; repeat case_bool_decide; try reflexivity; congruence.
Qed.

Lemma scalar_one_or_none_state {S A} (rows : list A) (σ σ' : S) x :
  scalar_one_or_none rows σ = (σ', x) -> σ' = σ.
Proof.
  destruct rows as [|r [|r' rows]]; cbn; unfold ret, raise; congruence.
Qed.

Lemma scalar_one_or_none_some {S A} (rows : list A) (σ σ' : S) r :
  scalar_one_or_none rows σ = (σ', Ok (Some r)) -> σ' = σ /\ rows = [r].
Proof.
  destruct rows as [|r0 [|r' rows]]; cbn; unfold ret, raise;
    intros [= ]; subst; auto.
Qed.

Lemma scalar_one_or_none_none {S A} (rows : list A) (σ σ' : S) :
  scalar_one_or_none rows σ = (σ', Ok None) -> σ' = σ /\ rows = [].
Proof.
  destruct rows as [|r0 [|r' rows]]; cbn; unfold ret, raise;
    intros [= ]; subst; auto.
Qed.

Lemma filter_singleton_In {A} (p : A -> bool) (l : list A) (x : A) :
  List.filter p l = [x] -> In x l /\ p x = true.
Proof.
  intros Hf. apply filter_In. rewrite Hf. by left.
Qed.

(** A row that [find_duplicate] returns is a stored row with the key
    asked for. *)
Lemma find_duplicate_found (s : string) ty yr q σ σ' r :
  find_duplicate (VStr s) ty yr q σ = (σ', Ok (Some r)) ->
  σ' = σ /\ In r (financial_reports σ)
  /\ business_key r = mkKey (VStr (lower s)) ty yr q
  /\ List.filter (has_key (mkKey (VStr (lower s)) ty yr q))
       (financial_reports σ) = [r].
Proof.
  rewrite find_duplicate_spec.
  intros [-> Hrows]%scalar_one_or_none_some.
  destruct (filter_singleton_In _ _ _ Hrows) as [Hin Hkey].
  unfold has_key in Hkey. apply bool_decide_eq_true in Hkey. auto.
Qed.

Lemma get_by_id_found (report_id : Z) σ σ' r :
  get_by_id report_id σ = (σ', Ok (Some r)) ->
  σ' = σ /\ In r (financial_reports σ) /\ getattr r "id" = VInt report_id.
Proof.
  unfold get_by_id, bind, select_where.
  intros [-> Hrows]%scalar_one_or_none_some.
  destruct (filter_singleton_In _ _ _ Hrows) as [Hin Hid].
  rewrite sql_eq_decide in Hid. apply bool_decide_eq_true in Hid. auto.
Qed.

(** The INSERT appends one row: the object itself, with the identity
    value filled in when it carried no [id]. *)
Lemma insert_commit_ok report σ σ' stored :
  insert_commit report σ = (σ', Ok stored) ->
  financial_reports σ' = (financial_reports σ ++ [stored])%list
  /\ (forall key, key <> "id" -> stored !! key = report !! key)
  /\ (getattr stored "id" ∉ primary_keys (financial_reports σ))
  /\ (exists n, getattr stored "id" = VInt n).
Proof.
  unfold insert_commit.
  destruct (getattr report "id") as [|n|?] eqn:Hid; [| |discriminate];
    case_bool_decide as Hpk; intros [= <- <-]; cbn [financial_reports].
  - split; [done |]. split.
    + intros key Hne. by rewrite lookup_insert_ne.
    + rewrite getattr_insert_eq. eauto.
  - split; [done |]. split; [done |]. rewrite Hid. eauto.
Qed.

Lemma insert_commit_raise report σ σ' e :
  insert_commit report σ = (σ', Raise e) -> σ' = σ.
Proof.
  unfold insert_commit.
  destruct (getattr report "id"); try case_bool_decide; congruence.
Qed.

(** The UPDATE rewrites the rows with the old primary key. *)
Lemma update_commit_ok old_id report σ σ' stored :
  update_commit old_id report σ = (σ', Ok stored) ->
  stored = report
  /\ financial_reports σ' =
       (fun r => if bool_decide (getattr r "id" = old_id) then report else r)
         <$> financial_reports σ.
Proof.
  unfold update_commit.
  destruct (getattr report "id"); try discriminate.
  destruct (identity_update_refused _ _); [discriminate |].
  by intros [= <- <-].
Qed.

Lemma update_commit_raise old_id report σ σ' e :
  update_commit old_id report σ = (σ', Raise e) -> σ' = σ.
Proof.
  unfold update_commit.
  destruct (getattr report "id");
    try destruct (identity_update_refused _ _); congruence.
Qed.

Lemma update_commit_stores old_id report σ σ' stored r :
  update_commit old_id report σ = (σ', Ok stored) ->
  In r (financial_reports σ) -> getattr r "id" = old_id ->
  In stored (financial_reports σ').
Proof.
  intros [-> ->]%update_commit_ok Hin Hid.
  apply list_elem_of_In, list_elem_of_fmap. exists r. split.
  - by rewrite bool_decide_eq_true_2.
  - by apply list_elem_of_In.
Qed.

Section ReportFacts.
Context `{schema : Schema}.

Lemma new_FinancialReport_ok data σ σ' report :
  new_FinancialReport data σ = (σ', Ok report) -> σ' = σ /\ report = data.
Proof.
  unfold new_FinancialReport. case_bool_decide; cbn; unfold ret, raise;
    intros [= ]; auto.
Qed.

Lemma new_FinancialReport_state data σ σ' x :
  new_FinancialReport data σ = (σ', x) -> σ' = σ.
Proof.
  unfold new_FinancialReport. case_bool_decide; cbn; unfold ret, raise;
    congruence.
Qed.

Lemma add_ok data σ σ' r :
  add data σ = (σ', Ok r) -> insert_commit data σ = (σ', Ok r).
Proof.
  unfold add. intros (σ1 & report & Hnew & Hins)%bind_inv_ok.
  apply new_FinancialReport_ok in Hnew as [-> ->]. done.
Qed.

(** The two ways [upsert] returns: it found no row with the key and
    inserted the payload, or it found exactly one and overwrote it. *)
Lemma upsert_ok data σ σ' r c :
  upsert data σ = (σ', Ok (r, c)) ->
  exists s ty yr,
    data !! "symbol" = Some (VStr s)
    /\ data !! "report_type" = Some ty
    /\ data !! "report_year" = Some yr
    /\ let k := mkKey (VStr (lower s)) ty yr
                  (getattr data "report_quarter") in
       (c = true
        /\ List.filter (has_key k) (financial_reports σ) = []
        /\ insert_commit data σ = (σ', Ok r))
       \/ (c = false
           /\ exists existing,
               List.filter (has_key k) (financial_reports σ) = [existing]
               /\ update_commit (getattr existing "id")
                    (setattr_items upsert_guard data existing) σ
                  = (σ', Ok r)).
Proof.
  unfold upsert, subscript.
  destruct (data !! "symbol") as [sym|] eqn:Hsym; [| discriminate].
  destruct (data !! "report_type") as [ty|] eqn:Hty; [| discriminate].
  destruct (data !! "report_year") as [yr|] eqn:Hyr; [| discriminate].
  unfold bind at 1 2 3. cbn [ret].
  destruct sym as [| |s]; try discriminate.
  intros (σ1 & existing & Hfind & Hrest)%bind_inv_ok.
  exists s, ty, yr. repeat (split; [done |]). cbn zeta.
  destruct existing as [existing|].
  - right.
    apply find_duplicate_found in Hfind as (-> & _ & _ & Hrows).
    apply bind_inv_ok in Hrest as (σ2 & refreshed & Hupd & Hret).
    injection Hret as <- <- <-. eauto.
  - left.
    rewrite find_duplicate_spec in Hfind.
    apply scalar_one_or_none_none in Hfind as [-> Hrows].
    apply bind_inv_ok in Hrest as (σ2 & report & Hnew & Hrest).
    apply new_FinancialReport_ok in Hnew as [-> ->].
    apply bind_inv_ok in Hrest as (σ3 & refreshed & Hins & Hret).
    injection Hret as <- <- <-. eauto.
Qed.

(** A call of [upsert] that raises commits nothing. *)
Lemma upsert_raise data σ σ' e :
  upsert data σ = (σ', Raise e) -> σ' = σ.
Proof.
  unfold upsert, subscript, bind, raise, ret.
  destruct (data !! "symbol") as [sym|]; [| congruence].
  destruct (data !! "report_type") as [ty|]; [| congruence].
  destruct (data !! "report_year") as [yr|]; [| congruence].
  destruct sym as [| |s]; try (cbn; unfold raise; congruence).
  rewrite find_duplicate_spec.
  destruct (scalar_one_or_none _ σ) as [σ1 [existing|e1]] eqn:Hfind;
    apply scalar_one_or_none_state in Hfind as ->; [| congruence].
  destruct existing as [existing|].
  - destruct (update_commit _ _ σ) as [σ2 [refreshed|e2]] eqn:Hupd;
      [discriminate |].
    apply update_commit_raise in Hupd as ->. congruence.
  - destruct (new_FinancialReport data σ) as [σ2 [report|e2]] eqn:Hnew;
      apply new_FinancialReport_state in Hnew as ->; [| congruence].
    destruct (insert_commit report σ) as [σ3 [refreshed|e3]] eqn:Hins;
      [discriminate |].
    apply insert_commit_raise in Hins as ->. congruence.
Qed.

(** *** Symbol normalization on the paths that take a symbol *)

Lemma select_symbol_filter (s : string) (rows : list FinancialReport) :
  List.filter (fun r => sql_eq (getattr r "symbol") (VStr (lower s))) rows
  = List.filter (symbol_is (lower s)) rows.
Proof.
  apply filter_ext_bool. intros r. unfold symbol_is. apply sql_eq_decide.
Qed.

Lemma get_by_symbol_spec (s : string) σ :
  get_by_symbol (VStr s) σ
  = (σ, Ok (List.filter (symbol_is (lower s)) (financial_reports σ))).
Proof.
  unfold get_by_symbol, bind, select_where. cbn [str_lower ret].
  by rewrite select_symbol_filter.
Qed.

Lemma count_by_symbol_spec (s : string) σ :
  count_by_symbol (VStr s) σ
  = (σ, Ok (Z.of_nat (List.length
             (List.filter (symbol_is (lower s)) (financial_reports σ))))).
Proof.
  unfold count_by_symbol, bind, select_where. cbn [str_lower ret].
  by rewrite select_symbol_filter.
Qed.

Lemma delete_by_symbol_spec (s : string) σ :
  delete_by_symbol (VStr s) σ
  = (mkSession
       (List.filter (fun r => negb (symbol_is (lower s) r))
                    (financial_reports σ))
       (identity σ),
     Ok (Z.of_nat (List.length
          (List.filter (symbol_is (lower s)) (financial_reports σ))))).
Proof.
  unfold delete_by_symbol, bind, delete_where. cbn [str_lower ret].
  rewrite select_symbol_filter. do 2 f_equal.
  apply filter_ext_bool. intros r. unfold symbol_is.
  by rewrite sql_eq_decide.
Qed.

(** *** What the write paths store in the symbol column *)

Lemma insert_commit_symbol report σ σ' stored :
  insert_commit report σ = (σ', Ok stored) ->
  In stored (financial_reports σ')
  /\ getattr stored "symbol" = getattr report "symbol".
Proof.
  intros (Htable & Hkeep & _ & _)%insert_commit_ok. split.
  - rewrite Htable. apply in_or_app. right. by left.
  - unfold getattr. by rewrite Hkeep.
Qed.

Lemma add_symbol data σ σ' r :
  add data σ = (σ', Ok r) ->
  In r (financial_reports σ') /\ getattr r "symbol" = getattr data "symbol".
Proof. intros Hadd%add_ok. by apply insert_commit_symbol in Hadd. Qed.

Lemma upsert_symbol data σ σ' r c v :
  upsert data σ = (σ', Ok (r, c)) ->
  data !! "symbol" = Some v ->
  In r (financial_reports σ') /\ getattr r "symbol" = v.
Proof.
  intros (s & ty & yr & Hs & _ & _ & Hcase)%upsert_ok Hv. cbn zeta in Hcase.
  destruct Hcase as [(_ & _ & Hins) | (_ & existing & Hrows & Hupd)].
  - apply insert_commit_symbol in Hins as [Hin Hsym]. split; [done |].
    rewrite Hsym. unfold getattr. by rewrite Hv.
  - destruct (filter_singleton_In _ _ _ Hrows) as [Hin _]. split.
    + by eapply update_commit_stores.
    + apply update_commit_ok in Hupd as [-> _].
      by apply setattr_items_getattr_set.
Qed.

Lemma update_symbol report_id data σ σ' r v :
  update report_id data σ = (σ', Ok (Some r)) ->
  data !! "symbol" = Some v ->
  In r (financial_reports σ') /\ getattr r "symbol" = v.
Proof.
  unfold update. intros (σ1 & found & Hget & Hrest)%bind_inv_ok Hv.
  destruct found as [report|]; [| discriminate].
  apply get_by_id_found in Hget as (-> & Hin & Hid).
  apply bind_inv_ok in Hrest as (σ2 & refreshed & Hupd & Hret).
  injection Hret as <- <-. split.
  - by eapply update_commit_stores.
  - apply update_commit_ok in Hupd as [-> _].
    by apply setattr_items_getattr_set.
Qed.

Lemma construct_all_ok datas σ σ' reports :
  construct_all datas σ = (σ', Ok reports) -> σ' = σ /\ reports = datas.
Proof.
  revert σ' reports.
  induction datas as [|data datas IH]; intros σ' reports.
  - cbn. unfold ret. by intros [= <- <-].
  - cbn [construct_all].
    intros (σ1 & report & Hnew & Hrest)%bind_inv_ok.
    apply new_FinancialReport_ok in Hnew as [-> ->].
    apply bind_inv_ok in Hrest as (σ2 & others & Hall & Hret).
    apply IH in Hall as [-> ->]. unfold ret in Hret.
    by injection Hret as <- <-.
Qed.

Lemma bulk_save_objects_ok reports σ σ' stored :
  bulk_save_objects reports σ = (σ', Ok stored) ->
  financial_reports σ' = (financial_reports σ ++ stored)%list
  /\ Forall2 (fun report st => getattr st "symbol" = getattr report "symbol")
       reports stored.
Proof.
  revert σ σ' stored. induction reports as [|report reports IH];
    intros σ σ' stored.
  - cbn. unfold ret. intros [= <- <-]. by rewrite app_nil_r.
  - cbn [bulk_save_objects].
    intros (σ1 & st & Hins & Hrest)%bind_inv_ok.
    apply bind_inv_ok in Hrest as (σ2 & others & Hall & Hret).
    unfold ret in Hret. injection Hret as <- <-.
    apply IH in Hall as [Htable Hall].
    pose proof (insert_commit_symbol _ _ _ _ Hins) as [_ Hsym].
    apply insert_commit_ok in Hins as (Htable1 & _ & _ & _).
    split; [| by constructor].
    by rewrite Htable, Htable1, <- app_assoc.
Qed.

Lemma add_bulk_symbol datas σ σ' rs :
  add_bulk datas σ = (σ', Ok rs) ->
  Forall2 (fun data r => In r (financial_reports σ')
                         /\ getattr r "symbol" = getattr data "symbol")
    datas rs.
Proof.
  unfold add_bulk. intros (σ1 & reports & Hall & Hsave)%bind_inv_ok.
  apply construct_all_ok in Hall as [-> ->].
  destruct (bulk_save_objects datas σ) as [σ2 [stored|e]] eqn:Hbulk;
    [| discriminate].
  injection Hsave as <- <-.
  apply bulk_save_objects_ok in Hbulk as [Htable Hall].
  apply Forall2_same_length_lookup. split; [by eapply Forall2_length |].
  intros i data r Hdata Hr. split.
  - rewrite Htable. apply in_or_app. right.
    apply list_elem_of_In. by eapply list_elem_of_lookup_2.
  - by eapply (Forall2_lookup_lr _ _ _ _ _ _ Hall).
Qed.

(** C1 (as the code has it): the four paths that take a symbol argument
    compare the stored symbols with the lowercase form of the argument,
    so arguments that differ only in case give the same result; on the
    paths that take a payload (add, add_bulk, update, upsert) the stored
    record carries the lowercase form of the payload's symbol whenever
    the payload's symbol is lowercase already. *)
Theorem symbol_normalization (s s' : string) (ty yr q : value)
    (t : string) (data : gmap string value) (σ : Session) :
  lower s = lower s' ->
  data !! "symbol" = Some (VStr t) ->
  lower t = t ->
  (get_by_symbol (VStr s) σ
     = (σ, Ok (List.filter (symbol_is (lower s)) (financial_reports σ)))
   /\ count_by_symbol (VStr s) σ
     = (σ, Ok (Z.of_nat (List.length
                (List.filter (symbol_is (lower s)) (financial_reports σ)))))
   /\ delete_by_symbol (VStr s) σ
     = (mkSession
          (List.filter (fun r => negb (symbol_is (lower s) r))
                       (financial_reports σ))
          (identity σ),
        Ok (Z.of_nat (List.length
             (List.filter (symbol_is (lower s)) (financial_reports σ)))))
   /\ (forall σ' r,
         find_duplicate (VStr s) ty yr q σ = (σ', Ok (Some r)) ->
         In r (financial_reports σ) /\ getattr r "symbol" = VStr (lower s)))
  /\ (get_by_symbol (VStr s) σ = get_by_symbol (VStr s') σ
      /\ count_by_symbol (VStr s) σ = count_by_symbol (VStr s') σ
      /\ delete_by_symbol (VStr s) σ = delete_by_symbol (VStr s') σ
      /\ find_duplicate (VStr s) ty yr q σ
         = find_duplicate (VStr s') ty yr q σ)
  /\ ((forall σ' r,
         add data σ = (σ', Ok r) ->
         In r (financial_reports σ') /\ getattr r "symbol" = VStr (lower t))
      /\ (forall datas σ' rs i r,
            add_bulk datas σ = (σ', Ok rs) ->
            datas !! i = Some data -> rs !! i = Some r ->
            In r (financial_reports σ')
            /\ getattr r "symbol" = VStr (lower t))
      /\ (forall report_id σ' r,
            update report_id data σ = (σ', Ok (Some r)) ->
            In r (financial_reports σ')
            /\ getattr r "symbol" = VStr (lower t))
      /\ (forall σ' r c,
            upsert data σ = (σ', Ok (r, c)) ->
            In r (financial_reports σ')
            /\ getattr r "symbol" = VStr (lower t))).
Proof.
  intros Hcase Hdata Ht.
  split; [| split].
  - split; [apply get_by_symbol_spec |].
    split; [apply count_by_symbol_spec |].
    split; [apply delete_by_symbol_spec |].
    intros σ' r (_ & Hin & Hkey & _)%find_duplicate_found.
    split; [done |]. by injection Hkey.
  - rewrite !get_by_symbol_spec, !count_by_symbol_spec,
      !delete_by_symbol_spec, !find_duplicate_spec, Hcase. done.
  - split; [| split; [| split]].
    + intros σ' r [Hin Hsym]%add_symbol. split; [done |].
      rewrite Hsym. unfold getattr. by rewrite Hdata, Ht.
    + intros datas σ' rs i r Hbulk%add_bulk_symbol Hd Hr.
      destruct (Forall2_lookup_lr _ _ _ _ _ _ Hbulk Hd Hr) as [Hin Hsym].
      split; [done |].
      rewrite Hsym. unfold getattr. by rewrite Hdata, Ht.
    + intros report_id σ' r Hup.
      destruct (update_symbol _ _ _ _ _ _ Hup Hdata) as [Hin Hsym].
      by rewrite Hsym, Ht.
    + intros σ' r c Hup.
      destruct (upsert_symbol _ _ _ _ _ _ Hup Hdata) as [Hin Hsym].
      by rewrite Hsym, Ht.
Qed.

(** *** Upsert on one business key *)

(** The overwrite branch of [upsert], run forward. *)
Lemma upsert_found data (s : string) ty yr existing σ :
  data !! "symbol" = Some (VStr s) ->
  data !! "report_type" = Some ty ->
  data !! "report_year" = Some yr ->
  List.filter
    (has_key (mkKey (VStr (lower s)) ty yr (getattr data "report_quarter")))
    (financial_reports σ) = [existing] ->
  upsert data σ =
    (let* refreshed :=
       update_commit (getattr existing "id")
         (setattr_items upsert_guard data existing) in
     ret (refreshed, false)) σ.
Proof.
  intros Hs Hty Hyr Hrows.
  unfold upsert, subscript. rewrite Hs, Hty, Hyr.
  unfold bind at 1 2 3 4. cbn [ret].
  by rewrite find_duplicate_spec, Hrows.
Qed.

(** The insert branch of [upsert], run forward. *)
Lemma upsert_not_found data (s : string) ty yr σ :
  data !! "symbol" = Some (VStr s) ->
  data !! "report_type" = Some ty ->
  data !! "report_year" = Some yr ->
  List.filter
    (has_key (mkKey (VStr (lower s)) ty yr (getattr data "report_quarter")))
    (financial_reports σ) = [] ->
  upsert data σ =
    (let* new_report := new_FinancialReport data in
     let* refreshed := insert_commit new_report in
     ret (refreshed, true)) σ.
Proof.
  intros Hs Hty Hyr Hrows.
  unfold upsert, subscript. rewrite Hs, Hty, Hyr.
  unfold bind at 1 2 3 4. cbn [ret].
  by rewrite find_duplicate_spec, Hrows.
Qed.

Lemma upsert_guard_id : upsert_guard "id" = false.
Proof. unfold upsert_guard. cbn. by rewrite andb_false_r. Qed.

Lemma upsert_guard_column key :
  hasattr key = true -> key <> "id" -> upsert_guard key = true.
Proof.
  intros Hattr Hne. unfold upsert_guard. rewrite Hattr. cbn.
  by apply negb_true_iff, String.eqb_neq.
Qed.

(** A record that takes its key attributes from a payload carrying [k]
    has the business key [k]. *)
Lemma business_key_of_payload (data : gmap string value)
    (report : FinancialReport) k :
  carries_key data k ->
  (forall key, key <> "id" -> report !! key = data !! key) ->
  business_key report = k.
Proof.
  intros (Hs & Hty & Hyr & Hq) Hkeep. destruct k as [ks kt ky kq].
  cbn in *. unfold business_key, getattr in *.
  rewrite !Hkeep by done. by rewrite Hs, Hty, Hyr, Hq.
Qed.

Lemma business_key_overwritten (data : gmap string value)
    (existing : FinancialReport) k :
  carries_key data k ->
  business_key existing = k ->
  business_key (setattr_items upsert_guard data existing) = k.
Proof.
  intros (Hs & Hty & Hyr & Hq) Hold. destruct k as [ks kt ky kq].
  cbn in *. unfold business_key in *. injection Hold as Hos Hot Hoy Hoq.
  f_equal; try (by apply setattr_items_getattr_set).
  destruct (data !! "report_quarter") as [v|] eqn:Hdq.
  - rewrite (setattr_items_getattr_set _ _ _ _ v) by done.
    unfold getattr in Hq. by rewrite Hdq in Hq.
  - rewrite setattr_items_getattr_keep by auto.
    unfold getattr in Hq. rewrite Hdq in Hq. cbn in Hq. congruence.
Qed.

(** Rewriting the rows with a primary key that only the last row has. *)
Lemma rewrite_last_row (table : list FinancialReport)
    (old new : FinancialReport) :
  getattr old "id" ∉ primary_keys table ->
  (fun r => if bool_decide (getattr r "id" = getattr old "id")
            then new else r) <$> (table ++ [old])%list
  = (table ++ [new])%list.
Proof.
  intros Hfresh. rewrite fmap_app. cbn.
  rewrite bool_decide_eq_true_2 by done. f_equal.
  induction table as [|r table IH]; [done |].
  cbn in Hfresh. apply not_elem_of_cons in Hfresh as [Hne Hfresh].
  cbn. rewrite bool_decide_eq_false_2 by congruence.
  f_equal. by apply IH.
Qed.

(** On a store without the key, [upsert] of a payload that names only
    attributes of the entity and no [id] returns: it inserts the payload
    under the next identity value. *)
Lemma upsert_insert_returns (k : BusinessKey) (s : string)
    (data : gmap string value) (σ : Session) :
  key_symbol k = VStr s ->
  lower s = s ->
  carries_key data k ->
  List.filter (has_key k) (financial_reports σ) = [] ->
  map_Forall (fun key _ => Is_true (hasattr key)) data ->
  data !! "id" = None ->
  VInt (identity σ) ∉ primary_keys (financial_reports σ) ->
  upsert data σ
  = (mkSession (financial_reports σ ++ [stored_as (identity σ) data])
       (identity σ + 1),
     Ok (stored_as (identity σ) data, true)).
Proof.
  intros Hks Hlow (Hs & Hty & Hyr & Hq) Hfree Hattrs Hid Hfresh.
  rewrite Hks in Hs.
  rewrite (upsert_not_found data s (key_type k) (key_year k))
    by (try done; rewrite Hlow, Hq, <- Hks; by destruct k).
  unfold bind, new_FinancialReport.
  rewrite bool_decide_eq_true_2 by done. unfold ret, insert_commit, getattr.
  rewrite Hid. cbn [default].
  by rewrite bool_decide_eq_false_2 by done.
Qed.

(** *** The order of [get_all] *)

Lemma ascii_compare_lt_trans a b c :
  Ascii.compare a b = Lt -> Ascii.compare b c = Lt ->
  Ascii.compare a c = Lt.
Proof. unfold Ascii.compare. rewrite !N.compare_lt_iff. lia. Qed.

Lemma string_compare_lt_trans s1 s2 s3 :
  String.compare s1 s2 = Lt -> String.compare s2 s3 = Lt ->
  String.compare s1 s3 = Lt.
Proof.
  revert s2 s3.
  induction s1 as [|a s1 IH]; intros [|b s2] [|c s3]; cbn; try done.
  destruct (Ascii.compare a b) eqn:Hab; [| | discriminate].
  - apply Ascii.compare_eq_iff in Hab as ->.
    destruct (Ascii.compare b c); [apply IH | done | discriminate].
  - destruct (Ascii.compare b c) eqn:Hbc; [| | discriminate].
    + apply Ascii.compare_eq_iff in Hbc as <-. by rewrite Hab.
    + by rewrite (ascii_compare_lt_trans _ _ _ Hab Hbc).
Qed.

Lemma string_leb_trans s1 s2 s3 :
  String.leb s1 s2 = true -> String.leb s2 s3 = true ->
  String.leb s1 s3 = true.
Proof.
  unfold String.leb.
  destruct (String.compare s1 s2) eqn:H12; [| | discriminate]; intros _.
  - apply String.compare_eq_iff in H12 as ->. done.
  - destruct (String.compare s2 s3) eqn:H23; [| | discriminate]; intros _.
    + apply String.compare_eq_iff in H23 as <-. by rewrite H12.
    + by rewrite (string_compare_lt_trans _ _ _ H12 H23).
Qed.

Lemma value_leb_total a b : value_leb a b = true \/ value_leb b a = true.
Proof.
  destruct a as [|x|x], b as [|y|y]; cbn; auto.
  - destruct (Z.leb_spec x y); [by left |].
    right. apply Z.leb_le. lia.
  - apply String.leb_total.
Qed.

Lemma value_leb_antisym a b :
  value_leb a b = true -> value_leb b a = true -> a = b.
Proof.
  destruct a as [|x|x], b as [|y|y]; cbn; try done.
  - rewrite !Z.leb_le. intros. f_equal. lia.
  - intros Hxy Hyx. f_equal. by apply String.leb_antisym.
Qed.

Lemma value_leb_trans a b c :
  value_leb a b = true -> value_leb b c = true -> value_leb a c = true.
Proof.
  destruct a as [|x|x], b as [|y|y], c as [|z|z]; cbn; try done.
  - rewrite !Z.leb_le. lia.
  - apply string_leb_trans.
Qed.

Lemma order_by_leb_total clause r1 r2 :
  order_by_leb clause r1 r2 = true \/ order_by_leb clause r2 r1 = true.
Proof.
  induction clause as [|[column dir] clause IH]; cbn; [by left |].
  destruct (decide (getattr r1 column = getattr r2 column)) as [Hab|Hab].
  - by rewrite !bool_decide_eq_true_2 by done.
  - rewrite !bool_decide_eq_false_2 by done.
    destruct dir; apply value_leb_total.
Qed.

Lemma order_by_leb_trans clause r1 r2 r3 :
  order_by_leb clause r1 r2 = true -> order_by_leb clause r2 r3 = true ->
  order_by_leb clause r1 r3 = true.
Proof.
  induction clause as [|[column dir] clause IH]; cbn; [done |].
  set (a := getattr r1 column). set (b := getattr r2 column).
  set (c := getattr r3 column).
  destruct (decide (a = b)) as [Hab|Hab], (decide (b = c)) as [Hbc|Hbc];
    rewrite ?(bool_decide_eq_true_2 (a = b)),
      ?(bool_decide_eq_false_2 (a = b)),
      ?(bool_decide_eq_true_2 (b = c)),
      ?(bool_decide_eq_false_2 (b = c)) by done.
  - rewrite bool_decide_eq_true_2 by congruence. apply IH.
  - rewrite bool_decide_eq_false_2 by congruence. by rewrite Hab.
  - rewrite bool_decide_eq_false_2 by congruence. by rewrite Hbc.
  - intros H12 H23.
    assert (a <> c).
    { intros ->. destruct dir; apply Hab;
        eauto using value_leb_antisym. }
    rewrite bool_decide_eq_false_2 by done.
    destruct dir; eauto using value_leb_trans.
Qed.

Lemma order_by_total clause :
  Total (fun r1 r2 => Is_true (order_by_leb clause r1 r2)).
Proof.
  intros r1 r2.
  destruct (order_by_leb_total clause r1 r2) as [-> | ->]; cbn; auto.
Qed.

Lemma order_by_transitive clause :
  Transitive (fun r1 r2 => Is_true (order_by_leb clause r1 r2)).
Proof.
  intros r1 r2 r3 H12%Is_true_true H23%Is_true_true.
  apply Is_true_true. by eapply order_by_leb_trans.
Qed.

(** The ORDER BY clause of [get_all] is the order of the specification. *)
Lemma get_all_order_spec r1 r2 :
  Is_true (order_by_leb get_all_order r1 r2) <-> report_order r1 r2.
Proof.
  unfold report_order, value_lt, value_le. cbn.
  assert (Hrefl : getattr r1 "report_quarter" = getattr r2 "report_quarter"
            -> Is_true (value_leb (getattr r1 "report_quarter")
                                  (getattr r2 "report_quarter"))).
  { intros ->. apply Is_true_true.
    by destruct (value_leb_total (getattr r2 "report_quarter")
                                 (getattr r2 "report_quarter")). }
  repeat case_bool_decide; cbn; intuition (try congruence).
Qed.

Lemma get_all_unpaged σ :
  get_all None None σ
  = (σ, Ok (order_by get_all_order (financial_reports σ))).
Proof.
  unfold get_all, bind, select_where. cbn.
  by rewrite forallb_filter_id by (by apply forallb_forall).
Qed.

Lemma StronglySorted_report_order rows :
  StronglySorted (fun r1 r2 => Is_true (order_by_leb get_all_order r1 r2))
    rows ->
  StronglySorted report_order rows.
Proof.
  induction 1 as [|r rows Hsorted IH Hall]; constructor; [done |].
  eapply Forall_impl; [exact Hall |].
  intros r'. apply get_all_order_spec.
Qed.

(** C9: without paging, [get_all] returns all the stored records, every
    record before every later one in the order symbol ascending, then
    year descending, then quarter ascending; on the fixtures
    (A,2022,Q2), (A,2023,None), (A,2022,Q1) the result is
    (A,2023,None), (A,2022,Q1), (A,2022,Q2). *)
Theorem get_all_ordered (σ : Session) :
  (exists rows,
      get_all None None σ = (σ, Ok rows)
      /\ rows ≡ₚ financial_reports σ
      /\ StronglySorted report_order rows)
  /\ get_all None None ordering_fixture
     = (ordering_fixture,
        Ok [report_A_2023; report_A_2022_Q1; report_A_2022_Q2]).
Proof.
  split.
  - exists (order_by get_all_order (financial_reports σ)).
    split; [apply get_all_unpaged |]. split.
    + apply merge_sort_Permutation.
    + apply StronglySorted_report_order.
      apply (@StronglySorted_merge_sort _ _ _
               (order_by_transitive get_all_order)
               (order_by_total get_all_order)).
  - by_evaluation.
Qed.

(** C10: a limit of 0 and an offset of 0 act as an omitted parameter, so
    [get_all(limit=0)] returns every record and [get_all(offset=0)]
    skips none; a positive limit keeps that many leading records and a
    positive offset drops that many. *)
Theorem get_all_zero_is_none (σ : Session) (limit offset : option Z)
    (p : positive) :
  get_all (Some 0) offset σ = get_all None offset σ
  /\ get_all limit (Some 0) σ = get_all limit None σ
  /\ get_all (Some 0) None σ
     = (σ, Ok (order_by get_all_order (financial_reports σ)))
  /\ get_all None (Some 0) σ
     = (σ, Ok (order_by get_all_order (financial_reports σ)))
  /\ order_by get_all_order (financial_reports σ) ≡ₚ financial_reports σ
  /\ get_all (Some (Z.pos p)) None σ
     = (σ, Ok (take (Pos.to_nat p)
                 (order_by get_all_order (financial_reports σ))))
  /\ get_all None (Some (Z.pos p)) σ
     = (σ, Ok (drop (Pos.to_nat p)
                 (order_by get_all_order (financial_reports σ)))).
Proof.
  repeat split; try reflexivity; try apply get_all_unpaged.
  - apply merge_sort_Permutation.
  - unfold get_all, bind, select_where, apply_limit, ret. cbn.
    by rewrite forallb_filter_id by (by apply forallb_forall).
  - unfold get_all, bind, select_where, apply_offset, ret. cbn.
    by rewrite forallb_filter_id by (by apply forallb_forall).
Qed.

(** C7: a row that [find_duplicate] returns for an absent quarter has a
    NULL quarter, and a row it returns for a quarter value has that
    value, hence a non-NULL quarter. *)
Theorem find_duplicate_quarter_partition
    (symbol ty yr q : value) (σ σ' : Session) (r : FinancialReport) :
  find_duplicate symbol ty yr q σ = (σ', Ok (Some r)) ->
  In r (financial_reports σ)
  /\ (q = VNone -> getattr r "report_quarter" = VNone)
  /\ (q <> VNone ->
      getattr r "report_quarter" = q
      /\ getattr r "report_quarter" <> VNone).
Proof.
  destruct symbol as [| |s]; try discriminate.
  intros (_ & Hin & Hkey & _)%find_duplicate_found.
  injection Hkey as _ _ _ Hq. rewrite Hq. auto.
Qed.

(** *** Bulk upsert *)

Lemma upsert_bulk_loop_ok items σ σ' cs created_count updated_count :
  upserts_in_turn items σ σ' cs ->
  upsert_bulk_loop items created_count updated_count σ
  = (σ', Ok (created_count + count_created cs,
             updated_count + count_updated cs)).
Proof.
  intros Hturn. revert created_count updated_count.
  induction Hturn as [σ | data rest σ σ1 σ2 r c cs Hup Hturn IH];
    intros created_count updated_count.
  - cbn. unfold ret, count_created, count_updated. cbn.
    by rewrite !Z.add_0_r.
  - cbn [upsert_bulk_loop]. rewrite (bind_ok _ _ _ _ _ Hup).
    destruct c; rewrite IH; unfold count_created, count_updated;
      cbn [List.filter negb List.length];
      do 2 f_equal; f_equal; lia.
Qed.

Lemma upsert_bulk_loop_raise pre bad post σ σ1 cs e
    created_count updated_count :
  upserts_in_turn pre σ σ1 cs ->
  upsert bad σ1 = (σ1, Raise e) ->
  upsert_bulk_loop (pre ++ bad :: post) created_count updated_count σ
  = (σ1, Raise e).
Proof.
  intros Hturn Hbad. revert created_count updated_count.
  induction Hturn as [σ | data rest σ σ1 σ2 r c cs Hup Hturn IH];
    intros created_count updated_count.
  - cbn. by rewrite (bind_raise _ _ _ _ _ Hbad).
  - cbn [app upsert_bulk_loop]. rewrite (bind_ok _ _ _ _ _ Hup).
    destruct c; by apply IH.
Qed.

Lemma upserts_in_turn_length items σ σ' cs :
  upserts_in_turn items σ σ' cs -> List.length cs = List.length items.
Proof. induction 1; cbn; congruence. Qed.

Lemma count_created_updated cs :
  count_created cs + count_updated cs = Z.of_nat (List.length cs).
Proof.
  unfold count_created, count_updated.
  induction cs as [|[] cs IH]; cbn [List.filter negb List.length]; lia.
Qed.

(** C8: when the items before item N are upserted in turn and the
    upsert of item N raises, [upsert_bulk] raises that exception and
    the store is the one the earlier items committed; when every item
    is upserted, it returns the counts, their sum and [total] being the
    length of the list. *)
Theorem upsert_bulk_not_atomic (pre post : list (gmap string value))
    (bad : gmap string value) (σ σ1 σ2 : Session) (cs : list bool)
    (e : exn) :
  upserts_in_turn pre σ σ1 cs ->
  upsert bad σ1 = (σ2, Raise e) ->
  upsert_bulk (pre ++ bad :: post) σ = (σ1, Raise e)
  /\ upsert_bulk pre σ
     = (σ1, Ok (mkBulkStats (count_created cs) (count_updated cs)
                  (Z.of_nat (List.length pre))))
  /\ count_created cs + count_updated cs = Z.of_nat (List.length pre).
Proof.
  intros Hturn Hbad.
  pose proof (upsert_raise _ _ _ _ Hbad) as ->.
  split; [| split].
  - unfold upsert_bulk.
    by rewrite (bind_raise _ _ _ _ _
                  (upsert_bulk_loop_raise _ _ post _ _ _ _ 0 0 Hturn Hbad)).
  - unfold upsert_bulk.
    by rewrite (bind_ok _ _ _ _ _ (upsert_bulk_loop_ok _ _ _ _ 0 0 Hturn)).
  - rewrite count_created_updated.
    by rewrite (upserts_in_turn_length _ _ _ _ Hturn).
Qed.

(** The overwrite branch of [upsert] keeps the primary key. *)
Lemma upsert_keeps_id data σ σ' r :
  upsert data σ = (σ', Ok (r, false)) ->
  exists existing,
    In existing (financial_reports σ)
    /\ getattr r "id" = getattr existing "id".
Proof.
  intros (s & ty & yr & _ & _ & _ & Hcase)%upsert_ok. cbn zeta in Hcase.
  destruct Hcase as [(? & _) | (_ & existing & Hrows & Hupd)];
    [discriminate |].
  exists existing. split; [by eapply filter_singleton_In |].
  apply update_commit_ok in Hupd as [-> _].
  apply setattr_items_getattr_keep. left. apply upsert_guard_id.
Qed.
End ReportFacts.

(** ** The repository on concrete stores *)

(** Lookups by "ABC" and "abc" on a store holding a report of "abc", and
    [add] of a lowercase payload. *)
Lemma symbol_normalization_witness :
  let data := annual_report "abc" 2023 "first" in
  let σ := mkSession [stored_as 1 (annual_report "abc" 2022 "old")] 2 in
  lower "ABC" = lower "abc"
  /\ data !! "symbol" = Some (VStr "abc")
  /\ lower "abc" = "abc"
  /\ get_by_symbol (VStr "ABC") σ
     = (σ, Ok [stored_as 1 (annual_report "abc" 2022 "old")])
  /\ get_by_symbol (VStr "ABC") σ = get_by_symbol (VStr "abc") σ
  /\ forall σ' r,
       @add example_schema data σ = (σ', Ok r) ->
       In r (financial_reports σ') /\ getattr r "symbol" = VStr (lower "abc").
Proof.
  intros data σ.
  assert (Hcase : lower "ABC" = lower "abc") by by_evaluation.
  assert (Hdata : data !! "symbol" = Some (VStr "abc")) by by_evaluation.
  assert (Hlow : lower "abc" = "abc") by by_evaluation.
  destruct (@symbol_normalization example_schema "ABC" "abc"
              (VStr "annual") (VInt 2023) VNone "abc" data σ
              Hcase Hdata Hlow)
    as ((Hget & _) & (Hsame & _) & (Hadd & _)).
  split; [exact Hcase |]. split; [exact Hdata |]. split; [exact Hlow |].
  split; [exact Hget |]. split; [exact Hsame |]. exact Hadd.
Defined.

(** C1 as stated fails on the write paths: [add] stores the symbol of the
    payload as it is given, not its lowercase form, and the lookup by the
    same symbol then misses the record. *)
Lemma add_stores_symbol_as_given :
  let data := annual_report "ABC" 2023 "first" in
  let σ := mkSession [stored_as 1 data] 2 in
  @add example_schema data empty_session = (σ, Ok (stored_as 1 data))
  /\ getattr (stored_as 1 data) "symbol" = VStr "ABC"
  /\ getattr (stored_as 1 data) "symbol" <> VStr (lower "ABC")
  /\ get_by_symbol (VStr "ABC") σ = (σ, Ok []).
Proof.
  intros data σ. repeat split; try by_evaluation.
  vm_compute. discriminate.
Qed.

(** The annual report of xyz for 2023 next to a record of the same year
    whose quarter is stored as 0: the lookup without a quarter returns
    the former. *)
Lemma find_duplicate_quarter_partition_witness :
  let annual := stored_as 1 (annual_report "xyz" 2023 "fy") in
  let zero := stored_as 2 (<["report_quarter" := VInt 0]>
                             (annual_report "xyz" 2023 "q0")) in
  let σ := mkSession [annual; zero] 3 in
  find_duplicate (VStr "XYZ") (VStr "annual") (VInt 2023) VNone σ
    = (σ, Ok (Some annual))
  /\ In annual (financial_reports σ)
  /\ (VNone = VNone -> getattr annual "report_quarter" = VNone)
  /\ (VNone <> VNone ->
      getattr annual "report_quarter" = VNone
      /\ getattr annual "report_quarter" <> VNone).
Proof.
  intros annual zero σ.
  assert (Hfind : find_duplicate (VStr "XYZ") (VStr "annual") (VInt 2023)
                    VNone σ = (σ, Ok (Some annual))) by by_evaluation.
  split; [exact Hfind |].
  exact (find_duplicate_quarter_partition _ _ _ _ _ _ _ Hfind).
Defined.

(** A batch whose second item has no symbol: the call raises [KeyError]
    and the first item stays stored. *)
Lemma upsert_bulk_not_atomic_witness :
  let first := annual_report "abc" 2023 "first" in
  let later := annual_report "xyz" 2024 "later" in
  let σ1 := mkSession [stored_as 1 first] 2 in
  @upserts_in_turn example_schema [first] empty_session σ1 [true]
  /\ @upsert example_schema payload_without_symbol σ1
     = (σ1, Raise (KeyError "symbol"))
  /\ @upsert_bulk example_schema [first; payload_without_symbol; later]
       empty_session
     = (σ1, Raise (KeyError "symbol"))
  /\ @upsert_bulk example_schema [first] empty_session
     = (σ1, Ok (mkBulkStats 1 0 1)).
Proof.
  intros first later σ1.
  assert (Hturn : @upserts_in_turn example_schema [first] empty_session σ1
                    [true]).
  { apply (@upserts_cons example_schema first [] empty_session σ1 σ1
             (stored_as 1 first) true []);
      [by_evaluation | constructor]. }
  assert (Hbad : @upsert example_schema payload_without_symbol σ1
                 = (σ1, Raise (KeyError "symbol"))) by by_evaluation.
  split; [exact Hturn |]. split; [exact Hbad |].
  destruct (@upsert_bulk_not_atomic example_schema [first] [later]
              payload_without_symbol empty_session σ1 σ1 [true]
              (KeyError "symbol") Hturn Hbad) as (Hraise & Hstats & _).
  split; [exact Hraise | exact Hstats].
Defined.

(** Close a closed decidable proposition by evaluation. *)
Ltac by_decision :=
  refine (bool_decide_unpack _ _); vm_compute; exact I.

(** * Further properties of the bootstrap *)

Lemma never_raises_bind {S A B} classes (m : M S A) (k : A -> M S B) s :
  never_raises classes (snd (m s)) ->
  (forall a s', never_raises classes (snd (k a s'))) ->
  never_raises classes (snd (bind m k s)).
Proof.
  intros Hm Hk. unfold bind. destruct (m s) as [s' [a|e]]; [apply Hk | done].
Qed.

Lemma never_raises_try_except {S A} classes (m : M S A) handler s :
  (forall e s', never_raises classes (snd (handler e s'))) ->
  never_raises classes (snd (try_except m classes handler s)).
Proof.
  intros Hh. unfold try_except. destruct (m s) as [s' [a|e]]; [done |].
  destruct (classes e) eqn:He; [apply Hh | done].
Qed.

Lemma never_raises_weaken {A} (classes classes' : exn -> bool) (r : res A) :
  (forall e, classes e = true -> classes' e = true) ->
  never_raises classes' r -> never_raises classes r.
Proof.
  intros Hsub. destruct r as [a|e]; cbn; [done |]. intros He.
  destruct (classes e) eqn:Hc; [| done]. apply Hsub in Hc. congruence.
Qed.

Section BootstrapFacts.
Context {W : Type} `{Backend W} `{BackendAdmin W}.

Lemma verify_conn_never_raises (self : DBManager W) :
  never_raises is_sqlalchemy_error (snd (verify_conn self)).
Proof. by apply never_raises_try_except. Qed.

Lemma db_exists_never_raises (self : DBManager W) :
  never_raises is_sqlalchemy_error (snd (db_exists self)).
Proof. by apply never_raises_try_except. Qed.

Lemma tables_exist_never_raises (self : DBManager W) :
  never_raises is_sqlalchemy_error (snd (tables_exist self)).
Proof.
  apply never_raises_bind; [apply db_exists_never_raises |].
  intros [] self'; cbn [negb]; [by apply never_raises_try_except | done].
Qed.

Lemma sync_tables_never_raises (self : DBManager W) :
  never_raises is_sqlalchemy_error (snd (sync_tables self)).
Proof.
  apply never_raises_bind; [apply db_exists_never_raises |].
  intros [] self'; cbn [negb]; [| done].
  eapply never_raises_weaken;
    [| by apply (never_raises_try_except
                   (fun e => is_sqlalchemy_error e || is_runtime_error e
                             || is_file_not_found e))].
  intros e He. cbn beta. by rewrite He.
Qed.

(** X1: no step of the manager lets an [SQLAlchemyError] out: the
    connectivity, database and table checks, the synchronization, the
    database creation and the table listing turn it into their failure
    value; [initialize] lets out neither an [SQLAlchemyError] nor a
    [RuntimeError]. *)
Theorem manager_steps_swallow_database_errors (self : DBManager W) :
  never_raises is_sqlalchemy_error (snd (verify_conn self))
  /\ never_raises is_sqlalchemy_error (snd (db_exists self))
  /\ never_raises is_sqlalchemy_error (snd (tables_exist self))
  /\ never_raises is_sqlalchemy_error (snd (sync_tables self))
  /\ never_raises is_sqlalchemy_error (snd (create_db self))
  /\ never_raises is_sqlalchemy_error (snd (list_tables self))
  /\ never_raises (fun e => is_sqlalchemy_error e || is_runtime_error e)
       (snd (initialize self)).
Proof.
  split; [apply verify_conn_never_raises |].
  split; [apply db_exists_never_raises |].
  split; [apply tables_exist_never_raises |].
  split; [apply sync_tables_never_raises |].
  split; [| split].
  - apply never_raises_bind; [apply db_exists_never_raises |].
    intros [] self'; [done | by apply never_raises_try_except].
  - apply never_raises_bind; [apply db_exists_never_raises |].
    intros [] self'; cbn [negb]; [by apply never_raises_try_except | done].
  - unfold initialize, try_finally.
    pose proof (never_raises_try_except
                  (fun e => is_sqlalchemy_error e || is_runtime_error e)
                  (let* connected := verify_conn in
                   if negb connected then raise RuntimeError
                   else
                     let* present := db_exists in
                     if negb present then ret false
                     else
                       let* ready := tables_exist in
                       if negb ready then
                         let* synced := sync_tables in
                         if negb synced then ret false
                         else initialize_final_check
                       else
                         let* synced := sync_tables in
                         initialize_final_check)
                  (fun _ => ret false) self) as Hbody.
    destruct (try_except _ _ _ self) as [self' r]. by apply Hbody.
Qed.

(** X2: when the database is not there, the table check, the
    synchronization and the table listing answer at once with their
    failure value: the manager is left as the database check left it, so
    no target engine is created, no table query is sent and Alembic is
    not run. *)
Theorem steps_without_database (self self' : DBManager W) :
  db_exists self = (self', Ok false) ->
  tables_exist self = (self', Ok false)
  /\ sync_tables self = (self', Ok false)
  /\ list_tables self = (self', Ok []).
Proof.
  intros Hdb. unfold tables_exist, sync_tables, list_tables.
  by rewrite !(bind_ok _ _ _ _ _ Hdb).
Qed.

(** X3: [create_db] on an existing database returns [True] without
    sending a CREATE DATABASE statement; on a missing one it sends the
    statement and reports whether it went through. *)
Theorem create_db_guarded (self self1 : DBManager W) (present : bool) :
  db_exists self = (self1, Ok present) ->
  (present = true -> create_db self = (self1, Ok true))
  /\ (present = false ->
      forall w r,
        execute_create_database (db_name self1) (world self1) = (w, r) ->
        create_db self
        = (mkDBManager (db_name self1) true (target_engine self1) w,
           match r with
           | Ok _ => Ok true
           | Raise e => if is_sqlalchemy_error e then Ok false else Raise e
           end)).
Proof.
  intros Hdb. unfold create_db. rewrite (bind_ok _ _ _ _ _ Hdb). split.
  - by intros ->.
  - intros -> w r Hcreate.
    unfold try_except, bind, _get_engine, get_state, on_world. cbn.
    rewrite Hcreate. destruct r as [[]|e]; [done |].
    by destruct (is_sqlalchemy_error e).
Qed.

(** X4: when the connection is there and the database is not,
    [initialize] returns [False] after the clean-up, having checked no
    table and run no migration. *)
Theorem initialize_without_database (self0 self1 self2 : DBManager W) :
  verify_conn self0 = (self1, Ok true) ->
  db_exists self1 = (self2, Ok false) ->
  initialize self0 = (cleanup self2, Ok false).
Proof.
  intros Hconn Hdb. unfold initialize, try_finally, try_except.
  rewrite (bind_ok _ _ _ _ _ Hconn). cbn [negb].
  by rewrite (bind_ok _ _ _ _ _ Hdb).
Qed.

(** X5: an exception that leaves [sync_tables] leaves [initialize] too,
    after the clean-up, unless it is a [RuntimeError] or an
    [SQLAlchemyError], which [initialize] turns into [False]; so
    [initialize] is not guaranteed to return a boolean. *)
Theorem initialize_propagates_foreign_errors
    (self0 self1 self2 self3 self4 : DBManager W) (ready : bool) (e : exn) :
  verify_conn self0 = (self1, Ok true) ->
  db_exists self1 = (self2, Ok true) ->
  tables_exist self2 = (self3, Ok ready) ->
  sync_tables self3 = (self4, Raise e) ->
  initialize self0
  = (cleanup self4,
     if is_sqlalchemy_error e || is_runtime_error e
     then Ok false else Raise e).
Proof.
  intros Hconn Hdb Hready Hsync.
  rewrite (initialize_after_checks _ _ _ Hconn Hdb).
  unfold try_finally, try_except.
  rewrite (bind_ok _ _ _ _ _ Hready).
  destruct ready; cbn [negb]; rewrite (bind_raise _ _ _ _ _ Hsync);
    by destruct (is_sqlalchemy_error e || is_runtime_error e).
Qed.
End BootstrapFacts.

(** * Further properties of the repository *)

Lemma filter_partition_length {A} (p : A -> bool) (l : list A) :
  (List.length (List.filter p l)
   + List.length (List.filter (fun x => negb (p x)) l))%nat
  = List.length l.
Proof.
  induction l as [|x l IH]; [done |].
  cbn. destruct (p x); cbn; lia.
Qed.

Lemma filter_nil_bool {A} (p : A -> bool) (l : list A) :
  (forall x, In x l -> p x = false) -> List.filter p l = [].
Proof.
  induction l as [|x l IH]; [done |]. intros Hall. cbn.
  rewrite (Hall x) by (by left). apply IH. intros y Hy. apply Hall. by right.
Qed.

(** No row is selected under a primary key that the table does not hold. *)
Lemma select_fresh_id (v : value) (table : list FinancialReport) :
  v ∉ primary_keys table ->
  List.filter (fun r => sql_eq (getattr r "id") v) table = [].
Proof.
  intros Hfresh. apply filter_nil_bool. intros r Hin.
  rewrite sql_eq_decide. apply bool_decide_eq_false. intros Hid.
  apply Hfresh. unfold primary_keys. apply list_elem_of_fmap.
  exists r. split; [done |]. by apply list_elem_of_In.
Qed.

(** Rewriting the only row that has a primary key by itself changes
    nothing. *)
Lemma rewrite_row_by_itself (v : value) (r : FinancialReport)
    (table : list FinancialReport) :
  List.filter (fun x => sql_eq (getattr x "id") v) table = [r] ->
  (fun x => if bool_decide (getattr x "id" = v) then r else x) <$> table
  = table.
Proof.
  intros Hrows.
  assert (Honly : forall x, In x table -> getattr x "id" = v -> x = r).
  { intros x Hin Hid.
    assert (Hx : In x (List.filter (fun x => sql_eq (getattr x "id") v) table)).
    { apply filter_In. split; [done |].
      rewrite sql_eq_decide. by apply bool_decide_eq_true. }
    rewrite Hrows in Hx. by destruct Hx as [<- | []]. }
  clear Hrows. induction table as [|x table IH]; [done |].
  cbn. rewrite IH by (intros y Hy; apply Honly; by right). f_equal.
  case_bool_decide as Hid; [| done].
  symmetry. apply Honly; [by left | done].
Qed.

Lemma session_eta (σ : Session) :
  mkSession (financial_reports σ) (identity σ) = σ.
Proof. by destruct σ. Qed.

Section RepositoryFacts.
Context `{schema : Schema}.

Lemma construct_all_state datas σ σ' (x : res (list FinancialReport)) :
  construct_all datas σ = (σ', x) -> σ' = σ.
Proof.
  revert σ' x. induction datas as [|data datas IH]; intros σ' x.
  - cbn. unfold ret. congruence.
  - cbn [construct_all]. unfold bind.
    destruct (new_FinancialReport data σ) as [σ1 [report|e]] eqn:Hnew;
      apply new_FinancialReport_state in Hnew as ->; [| congruence].
    destruct (construct_all datas σ) as [σ2 others].
    pose proof (IH _ _ eq_refl) as ->.
    destruct others; unfold ret; congruence.
Qed.

(** X6: a record that [add] has stored is found again under the id it
    was given: [add] appends exactly that record, and [get_by_id] of its
    id returns it. *)
Theorem add_then_get_by_id (data : gmap string value) (σ σ' : Session)
    (r : FinancialReport) :
  add data σ = (σ', Ok r) ->
  exists n,
    getattr r "id" = VInt n
    /\ get_by_id n σ' = (σ', Ok (Some r))
    /\ financial_reports σ' = (financial_reports σ ++ [r])%list
    /\ stored_count σ' = stored_count σ + 1.
Proof.
  intros Hadd%add_ok.
  apply insert_commit_ok in Hadd as (Htable & _ & Hfresh & n & Hid).
  exists n. split; [done |]. split; [| split; [done |]].
  - unfold get_by_id, bind, select_where.
    rewrite Htable, List.filter_app, select_fresh_id by (by rewrite <- Hid).
    cbn [List.filter app].
    by rewrite sql_eq_decide, bool_decide_eq_true_2.
  - unfold stored_count. rewrite Htable, length_app. cbn. lia.
Qed.

(** X7: a payload with an entry that is no attribute of the entity is
    rejected by [add] and by [add_bulk] with a [TypeError], and nothing
    is stored, not even the valid payloads that precede it in the list. *)
Theorem add_rejects_unknown_key (data : gmap string value)
    (before after : list (gmap string value)) (key : string) (v : value)
    (σ : Session) :
  data !! key = Some v ->
  hasattr key = false ->
  Forall (map_Forall (fun key _ => Is_true (hasattr key))) before ->
  add data σ = (σ, Raise TypeError)
  /\ add_bulk (before ++ data :: after) σ = (σ, Raise TypeError).
Proof.
  intros Hkey Hattr Hbefore.
  assert (Hnew : forall σ0, new_FinancialReport data σ0 = (σ0, Raise TypeError)).
  { intros σ0. unfold new_FinancialReport.
    rewrite bool_decide_eq_false_2; [done |].
    intros Hall. specialize (Hall key v Hkey). cbn beta in Hall.
    by rewrite Hattr in Hall. }
  split.
  - unfold add. by rewrite (bind_raise _ _ _ _ _ (Hnew σ)).
  - unfold add_bulk.
    assert (Hall : construct_all (before ++ data :: after) σ
                   = (σ, Raise TypeError)); [| by rewrite (bind_raise _ _ _ _ _ Hall)].
    induction Hbefore as [|d before Hd Hbefore IH]; cbn [app construct_all].
    + by rewrite (bind_raise _ _ _ _ _ (Hnew σ)).
    + unfold bind at 1. unfold new_FinancialReport at 1.
      rewrite bool_decide_eq_true_2 by done. cbn [ret].
      by rewrite (bind_raise _ _ _ _ _ IH).
Qed.

(** X8: [add_bulk] is all or nothing: when it returns, the records it
    returns, one per payload, are appended to the table in order; when it
    raises, the table is as it was. *)
Theorem add_bulk_all_or_nothing (datas : list (gmap string value))
    (σ : Session) :
  match add_bulk datas σ with
  | (σ', Ok rs) =>
      financial_reports σ' = (financial_reports σ ++ rs)%list
      /\ List.length rs = List.length datas
  | (σ', Raise _) => σ' = σ
  end.
Proof.
  unfold add_bulk, bind.
  destruct (construct_all datas σ) as [σ1 [reports|e]] eqn:Hall.
  - apply construct_all_ok in Hall as [-> ->].
    destruct (bulk_save_objects datas σ) as [σ2 [rs|e]] eqn:Hsave; [| done].
    apply bulk_save_objects_ok in Hsave as [Htable Hrs]. split; [done |].
    symmetry. by eapply Forall2_length.
  - by apply construct_all_state in Hall.
Qed.

(** X9: under an id that no stored record has, [get_by_id] and [update]
    return [None] and [delete] returns [False]; none of them raises or
    changes the store. *)
Theorem missing_id_is_not_an_error (n : Z) (data : gmap string value)
    (σ : Session) :
  VInt n ∉ primary_keys (financial_reports σ) ->
  get_by_id n σ = (σ, Ok None)
  /\ update n data σ = (σ, Ok None)
  /\ delete n σ = (σ, Ok false).
Proof.
  intros Hfresh.
  assert (Hget : get_by_id n σ = (σ, Ok None)).
  { unfold get_by_id, bind, select_where. by rewrite select_fresh_id. }
  split; [done |]. unfold update, delete.
  by rewrite !(bind_ok _ _ _ _ _ Hget).
Qed.

(** X10: [update] is a partial update of the record found: the record it
    returns has the mapping's value in every attribute of the entity that
    the mapping names, and the old value in every other attribute. *)
Theorem update_is_partial (n : Z) (data : gmap string value)
    (σ σ' : Session) (r r' : FinancialReport) :
  get_by_id n σ = (σ, Ok (Some r)) ->
  update n data σ = (σ', Ok (Some r')) ->
  In r' (financial_reports σ')
  /\ (forall key v,
        data !! key = Some v -> hasattr key = true -> r' !! key = Some v)
  /\ (forall key,
        data !! key = None \/ hasattr key = false -> r' !! key = r !! key).
Proof.
  intros Hget. unfold update. rewrite (bind_ok _ _ _ _ _ Hget).
  intros (σ2 & refreshed & Hupd & Hret)%bind_inv_ok.
  injection Hret as <- <-.
  apply get_by_id_found in Hget as (_ & Hin & Hid).
  split; [by eapply update_commit_stores |].
  apply update_commit_ok in Hupd as [-> _]. split.
  - intros key v Hv Hattr. by rewrite setattr_items_lookup, Hattr, Hv.
  - intros key Hcase. rewrite setattr_items_lookup.
    destruct (hasattr key); [| done].
    destruct Hcase as [-> | ?]; done.
Qed.

(** X11: [update] with a mapping that names no attribute of the entity
    changes nothing: it returns the record as it is stored and leaves the
    store as it was. *)
Theorem update_ignores_unknown_keys (n : Z) (data : gmap string value)
    (σ : Session) (r : FinancialReport) :
  get_by_id n σ = (σ, Ok (Some r)) ->
  map_Forall (fun key _ => hasattr key = false) data ->
  update n data σ = (σ, Ok (Some r)).
Proof.
  intros Hget Hunknown. unfold update. rewrite (bind_ok _ _ _ _ _ Hget).
  assert (Hsame : setattr_items hasattr data r = r).
  { apply map_eq. intros key. rewrite setattr_items_lookup.
    destruct (hasattr key) eqn:Hattr; [| done].
    destruct (data !! key) as [v|] eqn:Hv; [| done].
    apply Hunknown in Hv. congruence. }
  rewrite Hsame.
  unfold get_by_id, bind, select_where in Hget.
  apply scalar_one_or_none_some in Hget as [_ Hrows].
  destruct (filter_singleton_In _ _ _ Hrows) as [_ Hid].
  rewrite sql_eq_decide in Hid. apply bool_decide_eq_true in Hid.
  unfold update_commit, bind, identity_update_refused. rewrite Hid.
  rewrite bool_decide_eq_true_2 by done. cbn [negb].
  rewrite (rewrite_row_by_itself _ _ _ Hrows), session_eta. reflexivity.
Qed.

(** X12: [delete] of a stored record returns [True] and removes exactly
    that record: its id is no longer found, the count drops by one, and
    the records with another id stay. *)
Theorem delete_removes_one (n : Z) (σ : Session) (r : FinancialReport) :
  get_by_id n σ = (σ, Ok (Some r)) ->
  exists σ',
    delete n σ = (σ', Ok true)
    /\ get_by_id n σ' = (σ', Ok None)
    /\ stored_count σ' = stored_count σ - 1
    /\ (forall x, In x (financial_reports σ')
          <-> In x (financial_reports σ) /\ getattr x "id" <> VInt n).
Proof.
  intros Hget. unfold delete. rewrite (bind_ok _ _ _ _ _ Hget).
  unfold get_by_id, bind, select_where in Hget.
  apply scalar_one_or_none_some in Hget as [_ Hrows].
  destruct (filter_singleton_In _ _ _ Hrows) as [_ Hid].
  rewrite sql_eq_decide in Hid. apply bool_decide_eq_true in Hid.
  rewrite Hid.
  assert (Hp : forall x : FinancialReport,
             bool_decide (getattr x "id" = VInt n)
             = sql_eq (getattr x "id") (VInt n))
    by (intros x; by rewrite sql_eq_decide).
  eexists. split; [reflexivity |]. cbn [fst financial_reports].
  split; [| split].
  - unfold get_by_id, bind, select_where. cbn [financial_reports].
    rewrite filter_nil_bool; [done |].
    intros x [_ Hx]%filter_In. rewrite <- Hp. by apply negb_true_iff.
  - unfold stored_count. cbn [financial_reports].
    pose proof (filter_partition_length
                  (fun x : FinancialReport =>
                     bool_decide (getattr x "id" = VInt n))
                  (financial_reports σ)) as Hlen.
    rewrite (filter_ext_bool _ _ _ Hp), Hrows in Hlen. cbn in Hlen. lia.
  - intros x. rewrite filter_In. apply and_iff_compat_l.
    rewrite negb_true_iff. apply bool_decide_eq_false.
Qed.

Lemma filter_filter_disjoint {A} (p q : A -> bool) (l : list A) :
  (forall x, q x = true -> p x = false) ->
  List.filter q (List.filter p l) = [].
Proof.
  intros Hdis. apply filter_nil_bool.
  intros x [_ Hp]%filter_In. destruct (q x) eqn:Hq; [| done].
  apply Hdis in Hq. congruence.
Qed.

Lemma filter_filter_implies {A} (p q : A -> bool) (l : list A) :
  (forall x, q x = true -> p x = true) ->
  List.filter q (List.filter p l) = List.filter q l.
Proof.
  intros Himp. induction l as [|x l IH]; [done |]. cbn.
  destruct (p x) eqn:Hp; cbn; rewrite IH; [done |].
  destruct (q x) eqn:Hq; [| done]. apply Himp in Hq. congruence.
Qed.

(** X13: [delete_by_symbol] removes the records of the symbol, in any
    case of the argument, and only them: the number it returns is the
    count of the symbol before, the total drops by it, afterwards the
    symbol has no record and a second call deletes nothing, and the
    records of a symbol with another lowercase form are all still there. *)
Theorem delete_by_symbol_removes_symbol (s s2 : string) (σ : Session) :
  lower s2 <> lower s ->
  let σ' := fst (delete_by_symbol (VStr s) σ) in
  exists n,
    delete_by_symbol (VStr s) σ = (σ', Ok n)
    /\ count_by_symbol (VStr s) σ = (σ, Ok n)
    /\ stored_count σ' = stored_count σ - n
    /\ get_by_symbol (VStr s) σ' = (σ', Ok [])
    /\ delete_by_symbol (VStr s) σ' = (σ', Ok 0)
    /\ snd (get_by_symbol (VStr s2) σ') = snd (get_by_symbol (VStr s2) σ).
Proof.
  intros Hne σ'. subst σ'.
  rewrite !delete_by_symbol_spec, !get_by_symbol_spec, !count_by_symbol_spec.
  cbn [fst snd financial_reports identity].
  eexists. split; [reflexivity |]. split; [reflexivity |].
  assert (Hgone : List.filter (symbol_is (lower s))
                    (List.filter (fun r => negb (symbol_is (lower s) r))
                       (financial_reports σ)) = []).
  { apply filter_filter_disjoint. intros x ->. done. }
  split; [| split; [| split]].
  - unfold stored_count. cbn [financial_reports].
    pose proof (filter_partition_length (symbol_is (lower s))
                  (financial_reports σ)). lia.
  - by rewrite Hgone.
  - rewrite Hgone.
    by rewrite (filter_filter_implies
                  (fun r => negb (symbol_is (lower s) r))
                  (fun r => negb (symbol_is (lower s) r))).
  - rewrite (filter_filter_implies
               (fun r => negb (symbol_is (lower s) r))
               (symbol_is (lower s2))); [done |].
    intros x Hx. apply negb_true_iff. unfold symbol_is in *.
    apply bool_decide_eq_true in Hx. apply bool_decide_eq_false.
    rewrite Hx. congruence.
Qed.

(** X14: paging cuts the ordered list and loses nothing: a positive
    limit and offset give the [limit] records that follow the first
    [offset] ones; the page of the first [offset] records and the rest
    after that offset together are the whole ordered list; and [count]
    is its length. *)
Theorem get_all_pages (σ : Session) (limit offset : positive) :
  let all := order_by get_all_order (financial_reports σ) in
  get_all (Some (Z.pos limit)) (Some (Z.pos offset)) σ
  = (σ, Ok (take (Pos.to_nat limit) (drop (Pos.to_nat offset) all)))
  /\ (exists page rest,
        get_all (Some (Z.pos offset)) None σ = (σ, Ok page)
        /\ get_all None (Some (Z.pos offset)) σ = (σ, Ok rest)
        /\ (page ++ rest)%list = all
        /\ (List.length page <= Pos.to_nat offset)%nat)
  /\ count σ = (σ, Ok (Z.of_nat (List.length all))).
Proof.
  intros all.
  assert (Hsel : List.filter (fun _ : FinancialReport => true)
                   (financial_reports σ) = financial_reports σ)
    by (apply forallb_filter_id; by apply forallb_forall).
  split; [| split].
  - unfold get_all, bind, select_where, apply_limit, apply_offset, ret.
    cbn. by rewrite Hsel.
  - exists (take (Pos.to_nat offset) all), (drop (Pos.to_nat offset) all).
    split; [| split; [| split]].
    + unfold get_all, bind, select_where, apply_limit, ret. cbn.
      by rewrite Hsel.
    + unfold get_all, bind, select_where, apply_offset, ret. cbn.
      by rewrite Hsel.
    + apply take_drop.
    + rewrite length_take. lia.
  - unfold count, bind, select_where, ret. rewrite Hsel.
    do 3 f_equal. symmetry. apply Permutation_length.
    apply merge_sort_Permutation.
Qed.

(** X15: [upsert] adds one record when it reports [created] and none
    when it does not; it never removes a record. *)
Theorem upsert_count (data : gmap string value) (σ σ' : Session)
    (r : FinancialReport) (c : bool) :
  upsert data σ = (σ', Ok (r, c)) ->
  stored_count σ' = stored_count σ + (if c then 1 else 0)
  /\ In r (financial_reports σ').
Proof.
  intros Hup.
  pose proof (upsert_ok _ _ _ _ _ Hup)
    as (s & ty & yr & Hs & _ & _ & Hcase). cbn zeta in Hcase.
  split; [| by eapply upsert_symbol].
  unfold stored_count.
  destruct Hcase as [(-> & _ & Hins) | (-> & existing & _ & Hupd)].
  - apply insert_commit_ok in Hins as (-> & _). rewrite length_app. cbn. lia.
  - apply update_commit_ok in Hupd as [_ ->]. rewrite length_fmap. lia.
Qed.

(** X16: when the store holds more than one record with the key of the
    payload, [find_duplicate] raises [MultipleResultsFound], and so does
    [upsert], which then stores nothing. *)
Theorem upsert_ambiguous_key (data : gmap string value) (s : string)
    (ty yr : value) (σ : Session) :
  data !! "symbol" = Some (VStr s) ->
  data !! "report_type" = Some ty ->
  data !! "report_year" = Some yr ->
  (2 <= List.length
          (List.filter
             (has_key (mkKey (VStr (lower s)) ty yr
                         (getattr data "report_quarter")))
             (financial_reports σ)))%nat ->
  find_duplicate (VStr s) ty yr (getattr data "report_quarter") σ
  = (σ, Raise MultipleResultsFound)
  /\ upsert data σ = (σ, Raise MultipleResultsFound).
Proof.
  intros Hs Hty Hyr Hmany.
  assert (Hfind : find_duplicate (VStr s) ty yr
                    (getattr data "report_quarter") σ
                  = (σ, Raise MultipleResultsFound)).
  { rewrite find_duplicate_spec.
    destruct (List.filter _ _) as [|r1 [|r2 rows]]; cbn in Hmany; [lia.. |].
    reflexivity. }
  split; [done |].
  unfold upsert, subscript. rewrite Hs, Hty, Hyr.
  unfold bind at 1 2 3. cbn [ret].
  by rewrite (bind_raise _ _ _ _ _ Hfind).
Qed.

(** X17: a payload that lacks the symbol, the report type or the report
    year makes [upsert] raise [KeyError] for an entry it lacks, and
    nothing is stored. *)
Theorem upsert_missing_key (data : gmap string value) (key : string)
    (σ : Session) :
  key ∈ mandatory_keys ->
  data !! key = None ->
  exists missing,
    missing ∈ mandatory_keys
    /\ data !! missing = None
    /\ upsert data σ = (σ, Raise (KeyError missing)).
Proof.
  intros Hkey Hnone. unfold upsert, subscript.
  destruct (data !! "symbol") as [sym|] eqn:Hs.
  - destruct (data !! "report_type") as [ty|] eqn:Hty.
    + destruct (data !! "report_year") as [yr|] eqn:Hyr.
      * unfold mandatory_keys in Hkey.
        repeat (apply elem_of_cons in Hkey as [-> | Hkey]; [congruence |]).
        by apply elem_of_nil in Hkey.
      * exists "report_year". unfold mandatory_keys.
        split; [repeat constructor | done].
    + exists "report_type". unfold mandatory_keys.
      split; [repeat constructor | done].
  - exists "symbol". unfold mandatory_keys. split; [repeat constructor | done].
Qed.

(** X18: a record added with a lowercase symbol is found by
    [get_by_symbol] under every spelling of the symbol: the lookup gives
    the records it gave before and, after them, the new one. *)
Theorem add_then_get_by_symbol (data : gmap string value) (s s' : string)
    (σ σ' : Session) (r : FinancialReport) :
  data !! "symbol" = Some (VStr s) ->
  lower s' = s ->
  add data σ = (σ', Ok r) ->
  exists rows,
    get_by_symbol (VStr s') σ = (σ, Ok rows)
    /\ get_by_symbol (VStr s') σ' = (σ', Ok (rows ++ [r])%list).
Proof.
  intros Hs Hlow Hadd.
  pose proof (add_symbol _ _ _ _ Hadd) as [_ Hsym].
  apply add_ok, insert_commit_ok in Hadd as (Htable & _).
  eexists. rewrite !get_by_symbol_spec. split; [reflexivity |].
  rewrite Htable, List.filter_app. cbn [List.filter].
  unfold symbol_is at 2. rewrite bool_decide_eq_true_2; [done |].
  rewrite Hsym, Hlow. unfold getattr. by rewrite Hs.
Qed.

(** X19: the overwrite branch of [upsert] is a partial overwrite of the
    record found: the id stays, even when the payload names one; every
    other attribute of the entity that the payload names takes the
    payload's value; every attribute the payload does not name keeps its
    old value. *)
Theorem upsert_overwrite_is_partial (data : gmap string value)
    (σ σ' : Session) (r : FinancialReport) :
  upsert data σ = (σ', Ok (r, false)) ->
  exists existing,
    In existing (financial_reports σ)
    /\ getattr r "id" = getattr existing "id"
    /\ (forall key v,
          data !! key = Some v -> hasattr key = true -> key <> "id" ->
          r !! key = Some v)
    /\ (forall key, data !! key = None -> r !! key = existing !! key).
Proof.
  intros (s & ty & yr & _ & _ & _ & Hcase)%upsert_ok. cbn zeta in Hcase.
  destruct Hcase as [(? & _) | (_ & existing & Hrows & Hupd)];
    [discriminate |].
  exists existing. split; [by eapply filter_singleton_In |].
  apply update_commit_ok in Hupd as [-> _]. split; [| split].
  - apply setattr_items_getattr_keep. left. apply upsert_guard_id.
  - intros key v Hv Hattr Hne.
    by rewrite setattr_items_lookup, upsert_guard_column, Hv.
  - intros key Hnone. rewrite setattr_items_lookup, Hnone.
    by destruct (upsert_guard key).
Qed.

Lemma upsert_bulk_loop_shift items σ σ' c u c' u' a b :
  upsert_bulk_loop items c u σ = (σ', Ok (c', u')) ->
  upsert_bulk_loop items (c + a) (u + b) σ = (σ', Ok (c' + a, u' + b)).
Proof.
  revert σ c u. induction items as [|data items IH]; intros σ c u.
  - cbn. unfold ret. by intros [= <- <- <-].
  - cbn [upsert_bulk_loop]. unfold bind.
    destruct (upsert data σ) as [σ1 [[r was_created]|e]]; [| discriminate].
    destruct was_created; intros Hloop.
    + replace (c + a + 1) with (c + 1 + a) by lia. by apply IH.
    + replace (u + b + 1) with (u + 1 + b) by lia. by apply IH.
Qed.

Lemma upsert_bulk_loop_app xs ys σ σ1 c u c1 u1 :
  upsert_bulk_loop xs c u σ = (σ1, Ok (c1, u1)) ->
  upsert_bulk_loop (xs ++ ys) c u σ = upsert_bulk_loop ys c1 u1 σ1.
Proof.
  revert σ c u. induction xs as [|data xs IH]; intros σ c u.
  - cbn. unfold ret. by intros [= <- <- <-].
  - cbn [app upsert_bulk_loop]. unfold bind.
    destruct (upsert data σ) as [σ' [[r was_created]|e]]; [| discriminate].
    destruct was_created; apply IH.
Qed.

(** X20: a batch may be split: upserting a list in one call of
    [upsert_bulk] leaves the store and gives the counts that upserting
    its first part and then the rest in two calls does, the counts added
    up. *)
Theorem upsert_bulk_append (xs ys : list (gmap string value))
    (σ σ1 σ2 : Session) (s1 s2 : BulkStats) :
  upsert_bulk xs σ = (σ1, Ok s1) ->
  upsert_bulk ys σ1 = (σ2, Ok s2) ->
  upsert_bulk (xs ++ ys) σ
  = (σ2, Ok (mkBulkStats (created s1 + created s2)
               (updated s1 + updated s2) (total s1 + total s2))).
Proof.
  unfold upsert_bulk.
  intros (σa & [c1 u1] & Hxs & Hret1)%bind_inv_ok
         (σb & [c2 u2] & Hys & Hret2)%bind_inv_ok.
  unfold ret in Hret1, Hret2.
  injection Hret1 as <- <-. injection Hret2 as <- <-.
  apply (upsert_bulk_loop_shift _ _ _ _ _ _ _ c1 u1) in Hys.
  rewrite !Z.add_0_l in Hys.
  assert (Hall : upsert_bulk_loop (xs ++ ys) 0 0 σ
                 = (σb, Ok (c2 + c1, u2 + u1))).
  { by rewrite (upsert_bulk_loop_app _ ys _ _ _ _ _ _ Hxs). }
  rewrite (bind_ok _ _ _ _ _ Hall). unfold ret. cbn [created updated total].
  rewrite length_app, Nat2Z.inj_add. do 2 f_equal. f_equal; lia.
Qed.

(** *** Repeating an upsert *)

Lemma rewrite_no_row (v : value) (new : FinancialReport)
    (table : list FinancialReport) :
  v ∉ primary_keys table ->
  (fun r => if bool_decide (getattr r "id" = v) then new else r) <$> table
  = table.
Proof.
  induction table as [|r table IH]; [done |]. cbn.
  intros [Hne Hfresh]%not_elem_of_cons.
  rewrite bool_decide_eq_false_2 by congruence. f_equal. by apply IH.
Qed.

Lemma rewrite_unique_row (v : value) (old new : FinancialReport)
    (l1 l2 : list FinancialReport) :
  v ∉ primary_keys l1 -> v ∉ primary_keys l2 -> getattr old "id" = v ->
  (fun r => if bool_decide (getattr r "id" = v) then new else r)
    <$> (l1 ++ old :: l2)%list
  = (l1 ++ new :: l2)%list.
Proof.
  intros H1 H2 Hid. rewrite fmap_app, fmap_cons.
  rewrite !rewrite_no_row by done. by rewrite bool_decide_eq_true_2.
Qed.

Lemma unique_ids_split (table : list FinancialReport) (r : FinancialReport) :
  NoDup (primary_keys table) -> In r table ->
  exists l1 l2,
    table = (l1 ++ r :: l2)%list
    /\ (getattr r "id" ∉ primary_keys l1)
    /\ (getattr r "id" ∉ primary_keys l2).
Proof.
  intros Hnodup (l1 & l2 & ->)%in_split. exists l1, l2. split; [done |].
  unfold primary_keys in *. rewrite fmap_app, fmap_cons in Hnodup.
  apply NoDup_app in Hnodup as (_ & Hdisj & [Hl2 _]%NoDup_cons).
  split; [| done]. intros Hin. apply (Hdisj _ Hin). by left.
Qed.

Lemma setattr_items_fixed guard (data : gmap string value)
    (r : FinancialReport) :
  (forall key v, guard key = true -> data !! key = Some v ->
                 r !! key = Some v) ->
  setattr_items guard data r = r.
Proof.
  intros Hfixed. apply map_eq. intros key. rewrite setattr_items_lookup.
  destruct (guard key) eqn:Hg; [| done].
  destruct (data !! key) as [v|] eqn:Hv; [| done].
  symmetry. by apply Hfixed.
Qed.

Lemma filter_unit_split {A} (p : A -> bool) (l1 l2 : list A) (x : A) :
  List.filter p (l1 ++ x :: l2) = [x] ->
  List.filter p l1 = [] /\ List.filter p l2 = [].
Proof.
  pose proof (filter_singleton_In p (l1 ++ x :: l2) x) as Hx.
  rewrite List.filter_app. cbn [List.filter]. intros Hrows.
  assert (Hpx : p x = true).
  { destruct (p x) eqn:Hp; [done |].
    rewrite <- List.filter_app in Hrows.
    assert (Hin : In x (List.filter p (l1 ++ l2))) by (rewrite Hrows; by left).
    apply filter_In in Hin as [_ ?]. congruence. }
  rewrite Hpx in Hrows.
  destruct (List.filter p l1) as [|y l1']; cbn in Hrows.
  - split; [done |]. by injection Hrows.
  - injection Hrows as _ Hnil. symmetry in Hnil.
    by apply app_cons_not_nil in Hnil.
Qed.

(** On a table whose only record with the payload's key already has the
    payload's values, [upsert] changes nothing. *)
Lemma upsert_refind (data : gmap string value) (s : string) (ty yr : value)
    (σ : Session) (r : FinancialReport) (l1 l2 : list FinancialReport)
    (n : Z) :
  let k := mkKey (VStr (lower s)) ty yr (getattr data "report_quarter") in
  data !! "symbol" = Some (VStr s) ->
  data !! "report_type" = Some ty ->
  data !! "report_year" = Some yr ->
  financial_reports σ = (l1 ++ r :: l2)%list ->
  getattr r "id" = VInt n ->
  VInt n ∉ primary_keys l1 -> VInt n ∉ primary_keys l2 ->
  List.filter (has_key k) l1 = [] -> List.filter (has_key k) l2 = [] ->
  has_key k r = true ->
  (forall key v, upsert_guard key = true -> data !! key = Some v ->
                 r !! key = Some v) ->
  upsert data σ = (σ, Ok (r, false)).
Proof.
  intros k Hs Hty Hyr Htable Hid H1 H2 Hk1 Hk2 Hkr Hfixed.
  rewrite (upsert_found data s ty yr r); try done.
  - unfold bind, update_commit, identity_update_refused.
    rewrite setattr_items_fixed by done.
    rewrite Hid. rewrite bool_decide_eq_true_2 by done. cbn [negb].
    rewrite Htable, rewrite_unique_row by done.
    rewrite <- Htable, session_eta. reflexivity.
  - fold k. rewrite Htable, List.filter_app. cbn [List.filter].
    by rewrite Hk1, Hk2, Hkr.
Qed.

(** X21: [upsert] is idempotent on a payload: for a lowercase symbol and
    a store with unique ids, a second [upsert] of the payload that was
    just upserted returns the same record with [created = False] and
    leaves the store as the first call left it. *)
Theorem upsert_same_payload_twice (data : gmap string value) (s : string)
    (σ σ1 : Session) (r : FinancialReport) (c : bool) :
  unique_ids σ ->
  data !! "symbol" = Some (VStr s) ->
  lower s = s ->
  upsert data σ = (σ1, Ok (r, c)) ->
  upsert data σ1 = (σ1, Ok (r, false)).
Proof.
  intros Hunique Hs Hlow Hup.
  apply upsert_ok in Hup as (s0 & ty & yr & Hs0 & Hty & Hyr & Hcase).
  assert (s0 = s) as -> by congruence. cbn zeta in Hcase.
  set (k := mkKey (VStr (lower s)) ty yr (getattr data "report_quarter"))
    in *.
  assert (Hcarries : carries_key data k).
  { unfold carries_key, k. cbn. by rewrite Hlow. }
  destruct Hcase as [(_ & Hfree & Hins) | (_ & existing & Hrows & Hupd)].
  - apply insert_commit_ok in Hins as (Htable & Hkeep & Hfresh & n & Hid).
    apply (upsert_refind data s ty yr σ1 r (financial_reports σ) [] n);
      try done.
    + by rewrite <- Hid.
    + apply not_elem_of_nil.
    + unfold has_key. apply bool_decide_eq_true.
      by apply (business_key_of_payload data).
    + intros key v [_ Hne%negb_true_iff%String.eqb_neq]%andb_true_iff Hv.
      by rewrite Hkeep.
  - destruct (filter_singleton_In _ _ _ Hrows) as [Hin Hkey].
    destruct (unique_ids_split _ _ Hunique Hin)
      as (l1 & l2 & Htable & H1 & H2).
    rewrite Htable in Hrows. apply filter_unit_split in Hrows as [Hk1 Hk2].
    pose proof (update_commit_ok _ _ _ _ _ Hupd) as [-> Htable1].
    rewrite Htable, rewrite_unique_row in Htable1 by done.
    assert (Hid : getattr (setattr_items upsert_guard data existing) "id"
                  = getattr existing "id").
    { apply setattr_items_getattr_keep. left. apply upsert_guard_id. }
    assert (exists n, getattr existing "id" = VInt n) as [n Hn].
    { unfold update_commit in Hupd. rewrite Hid in Hupd.
      destruct (getattr existing "id"); try discriminate. eauto. }
    rewrite Hn in *.
    apply (upsert_refind data s ty yr σ1 _ l1 l2 n); try done.
    + unfold has_key. apply bool_decide_eq_true.
      apply business_key_overwritten; [done |].
      by apply bool_decide_eq_true in Hkey.
    + intros key v Hg Hv. by rewrite setattr_items_lookup, Hg, Hv.
Qed.

(** *** Unique primary keys *)

Lemma insert_commit_unique report σ :
  unique_ids σ -> unique_ids (fst (insert_commit report σ)).
Proof.
  intros Hunique.
  destruct (insert_commit report σ) as [σ' [stored|e]] eqn:Hins.
  - apply insert_commit_ok in Hins as (Htable & _ & Hfresh & _).
    unfold unique_ids, primary_keys in *. cbn [fst].
    rewrite Htable, fmap_app. apply NoDup_app. split; [done |].
    split; [| apply NoDup_singleton].
    intros x Hx [->|[]%elem_of_nil]%elem_of_cons. done.
  - by apply insert_commit_raise in Hins as ->.
Qed.

Lemma rewrite_keeps_ids (old_id : value) (report : FinancialReport)
    (table : list FinancialReport) :
  getattr report "id" = old_id ->
  primary_keys
    ((fun r => if bool_decide (getattr r "id" = old_id) then report else r)
       <$> table)
  = primary_keys table.
Proof.
  intros Hid. unfold primary_keys. rewrite <- list_fmap_compose.
  apply list_fmap_ext. intros i r _. cbn.
  case_bool_decide; congruence.
Qed.

(** The UPDATE leaves every primary key as it is, whether it goes
    through or fails. *)
Lemma update_commit_ids old_id report σ :
  primary_keys (financial_reports (fst (update_commit old_id report σ)))
  = primary_keys (financial_reports σ).
Proof.
  unfold update_commit.
  destruct (getattr report "id") as [|n|?] eqn:Hid; [done | | done].
  unfold identity_update_refused. case_bool_decide as Hsame; [| done].
  cbn [negb fst financial_reports]. apply rewrite_keeps_ids. congruence.
Qed.

Lemma update_commit_unique old_id report σ :
  unique_ids σ -> unique_ids (fst (update_commit old_id report σ)).
Proof. unfold unique_ids. by rewrite update_commit_ids. Qed.

Lemma delete_where_unique p σ :
  unique_ids σ -> unique_ids (fst (delete_where p σ)).
Proof.
  unfold unique_ids, delete_where, primary_keys. cbn [fst financial_reports].
  induction (financial_reports σ) as [|r table IH]; [done |].
  cbn. intros [Hfresh Hunique]%NoDup_cons.
  destruct (p r); cbn; [by apply IH |].
  apply NoDup_cons. split; [| by apply IH].
  intros (x & Hid & [Hx _]%list_elem_of_In%filter_In)%list_elem_of_fmap.
  apply Hfresh. apply list_elem_of_fmap. exists x.
  split; [done |]. by apply list_elem_of_In.
Qed.

Lemma upsert_unique data σ :
  unique_ids σ -> unique_ids (fst (upsert data σ)).
Proof.
  intros Hunique.
  destruct (upsert data σ) as [σ' [[r c]|e]] eqn:Hup.
  - apply upsert_ok in Hup as (s & ty & yr & _ & _ & _ & Hcase).
    cbn zeta in Hcase.
    destruct Hcase as [(_ & _ & Hins) | (_ & existing & _ & Hupd)].
    + pose proof (insert_commit_unique data σ Hunique) as Hnew.
      by rewrite Hins in Hnew.
    + pose proof (update_commit_unique (getattr existing "id")
                    (setattr_items upsert_guard data existing) σ Hunique)
        as Hnew.
      by rewrite Hupd in Hnew.
  - by apply upsert_raise in Hup as ->.
Qed.

Lemma bulk_save_objects_unique reports σ :
  unique_ids σ -> unique_ids (fst (bulk_save_objects reports σ)).
Proof.
  revert σ. induction reports as [|report reports IH]; intros σ Hunique.
  - done.
  - cbn [bulk_save_objects]. unfold bind.
    pose proof (insert_commit_unique report σ Hunique) as Hnew.
    destruct (insert_commit report σ) as [σ1 [stored|e]]; [| done].
    specialize (IH σ1 Hnew).
    by destruct (bulk_save_objects reports σ1) as [σ2 [others|e]].
Qed.

Lemma upsert_bulk_loop_unique items c u σ :
  unique_ids σ -> unique_ids (fst (upsert_bulk_loop items c u σ)).
Proof.
  revert c u σ. induction items as [|data items IH]; intros c u σ Hunique.
  - done.
  - cbn [upsert_bulk_loop]. unfold bind.
    pose proof (upsert_unique data σ Hunique) as Hnew.
    destruct (upsert data σ) as [σ1 [[r was_created]|e]]; [| done].
    destruct was_created; by apply IH.
Qed.

(** X22: every writing method keeps the primary keys of the stored
    records pairwise different, whether it returns or raises. *)
Theorem unique_ids_invariant (data : gmap string value)
    (datas : list (gmap string value)) (n : Z) (symbol : value)
    (σ : Session) :
  unique_ids σ ->
  unique_ids (fst (add data σ))
  /\ unique_ids (fst (add_bulk datas σ))
  /\ unique_ids (fst (update n data σ))
  /\ unique_ids (fst (upsert data σ))
  /\ unique_ids (fst (upsert_bulk datas σ))
  /\ unique_ids (fst (delete n σ))
  /\ unique_ids (fst (delete_by_symbol symbol σ)).
Proof.
  intros Hunique.
  assert (Hget : forall m, exists x, get_by_id m σ = (σ, x)).
  { intros m. unfold get_by_id, bind, select_where.
    destruct (scalar_one_or_none _ σ) as [σ1 x] eqn:Hrows.
    apply scalar_one_or_none_state in Hrows as ->. eauto. }
  repeat split.
  - unfold add, bind.
    destruct (new_FinancialReport data σ) as [σ1 [report|e]] eqn:Hnew;
      apply new_FinancialReport_state in Hnew as ->; [| done].
    by apply insert_commit_unique.
  - unfold add_bulk, bind.
    destruct (construct_all datas σ) as [σ1 [reports|e]] eqn:Hall;
      apply construct_all_state in Hall as ->; [| done].
    pose proof (bulk_save_objects_unique reports σ Hunique) as Hnew.
    by destruct (bulk_save_objects reports σ) as [σ2 [stored|e]].
  - unfold update, bind. destruct (Hget n) as [x ->].
    destruct x as [[report|]|e]; [| done..].
    pose proof (update_commit_unique (getattr report "id")
                  (setattr_items hasattr data report) σ Hunique) as Hnew.
    by destruct (update_commit _ _ σ) as [σ2 [refreshed|e]].
  - by apply upsert_unique.
  - unfold upsert_bulk, bind.
    pose proof (upsert_bulk_loop_unique datas 0 0 σ Hunique) as Hnew.
    by destruct (upsert_bulk_loop datas 0 0 σ) as [σ2 [[c u]|e]].
  - unfold delete, bind. destruct (Hget n) as [x ->].
    destruct x as [[report|]|e]; [| done..].
    by apply delete_where_unique.
  - unfold delete_by_symbol, bind.
    destruct symbol as [| |s]; [done.. |]. cbn [str_lower ret].
    by apply delete_where_unique.
Qed.
End RepositoryFacts.

(** * The further properties on concrete inputs *)

(** The database "huper" is missing on a reachable server. *)
Lemma steps_without_database_witness :
  let w := server_without_database in
  db_exists (fresh_manager w) = (manager_connected w, Ok false)
  /\ tables_exist (fresh_manager w) = (manager_connected w, Ok false)
  /\ sync_tables (fresh_manager w) = (manager_connected w, Ok false)
  /\ list_tables (fresh_manager w) = (manager_connected w, Ok []).
Proof.
  intros w.
  assert (Hdb : db_exists (fresh_manager w) = (manager_connected w, Ok false))
    by by_evaluation.
  split; [exact Hdb |].
  exact (steps_without_database (fresh_manager w) (manager_connected w) Hdb).
Defined.

(** [create_db] creates the missing database. *)
Lemma create_db_guarded_witness :
  let w := server_without_database in
  let w' := mkServer true ["master"; "huper"] [] [] in
  db_exists (fresh_manager w) = (manager_connected w, Ok false)
  /\ create_db (fresh_manager w) = (manager_connected w', Ok true).
Proof.
  intros w w'.
  assert (Hdb : db_exists (fresh_manager w) = (manager_connected w, Ok false))
    by by_evaluation.
  split; [exact Hdb |].
  destruct (create_db_guarded (fresh_manager w) (manager_connected w) false
              Hdb) as [_ Hcreate].
  exact (Hcreate eq_refl w' (Ok tt) eq_refl).
Defined.

Lemma initialize_without_database_witness :
  let w := server_without_database in
  verify_conn (fresh_manager w) = (manager_connected w, Ok true)
  /\ db_exists (manager_connected w) = (manager_connected w, Ok false)
  /\ initialize (fresh_manager w) = (cleanup (manager_connected w), Ok false).
Proof.
  intros w.
  assert (Hconn : verify_conn (fresh_manager w)
                  = (manager_connected w, Ok true)) by by_evaluation.
  assert (Hdb : db_exists (manager_connected w)
                = (manager_connected w, Ok false)) by by_evaluation.
  split; [exact Hconn |]. split; [exact Hdb |].
  exact (initialize_without_database _ _ _ Hconn Hdb).
Defined.

(** The migration raises an error of a foreign class: it leaves
    [sync_tables] and [initialize]. *)
Lemma initialize_propagates_foreign_errors_witness :
  let w := server_with_foreign_error in
  verify_conn (fresh_manager w) = (manager_connected w, Ok true)
  /\ db_exists (manager_connected w) = (manager_connected w, Ok true)
  /\ tables_exist (manager_connected w) = (manager_with_engines w, Ok true)
  /\ sync_tables (manager_with_engines w)
     = (manager_with_engines w, Raise OtherError)
  /\ initialize (fresh_manager w)
     = (cleanup (manager_with_engines w), Raise OtherError).
Proof.
  intros w.
  assert (Hconn : verify_conn (fresh_manager w)
                  = (manager_connected w, Ok true)) by by_evaluation.
  assert (Hdb : db_exists (manager_connected w)
                = (manager_connected w, Ok true)) by by_evaluation.
  assert (Hready : tables_exist (manager_connected w)
                   = (manager_with_engines w, Ok true)) by by_evaluation.
  assert (Hsync : sync_tables (manager_with_engines w)
                  = (manager_with_engines w, Raise OtherError))
    by by_evaluation.
  split; [exact Hconn |]. split; [exact Hdb |]. split; [exact Hready |].
  split; [exact Hsync |].
  exact (initialize_propagates_foreign_errors _ _ _ _ _ _ _
           Hconn Hdb Hready Hsync).
Defined.

Lemma add_then_get_by_id_witness :
  let data := annual_report "abc" 2023 "first" in
  @add example_schema data empty_session = (session_abc, Ok (stored_as 1 data))
  /\ exists n,
       getattr (stored_as 1 data) "id" = VInt n
       /\ get_by_id n session_abc = (session_abc, Ok (Some (stored_as 1 data)))
       /\ financial_reports session_abc
          = (financial_reports empty_session ++ [stored_as 1 data])%list
       /\ stored_count session_abc = stored_count empty_session + 1.
Proof.
  intros data.
  assert (Hadd : @add example_schema data empty_session
                 = (session_abc, Ok (stored_as 1 data))) by by_evaluation.
  split; [exact Hadd |].
  exact (@add_then_get_by_id example_schema _ _ _ _ Hadd).
Defined.

(** A payload with the entry "ticker", which the entity does not have,
    after a valid payload. *)
Lemma add_rejects_unknown_key_witness :
  let data := <["ticker" := VStr "abc"]> (annual_report "abc" 2023 "x") in
  let valid := annual_report "xyz" 2023 "y" in
  data !! "ticker" = Some (VStr "abc")
  /\ @hasattr example_schema "ticker" = false
  /\ @add example_schema data empty_session = (empty_session, Raise TypeError)
  /\ @add_bulk example_schema ([valid] ++ data :: [valid]) empty_session
     = (empty_session, Raise TypeError).
Proof.
  intros data valid.
  assert (Hkey : data !! "ticker" = Some (VStr "abc")) by by_evaluation.
  assert (Hattr : @hasattr example_schema "ticker" = false) by by_evaluation.
  assert (Hvalid : Forall (map_Forall (fun key _ =>
                             Is_true (@hasattr example_schema key))) [valid])
    by by_decision.
  split; [exact Hkey |]. split; [exact Hattr |].
  exact (@add_rejects_unknown_key example_schema data [valid] [valid]
           "ticker" (VStr "abc") empty_session Hkey Hattr Hvalid).
Defined.

Lemma missing_id_is_not_an_error_witness :
  let data : gmap string value := {[ "content" := VStr "new" ]} in
  (VInt 7 ∉ primary_keys (financial_reports session_abc))
  /\ get_by_id 7 session_abc = (session_abc, Ok None)
  /\ @update example_schema 7 data session_abc = (session_abc, Ok None)
  /\ delete 7 session_abc = (session_abc, Ok false).
Proof.
  intros data.
  assert (Hfresh : VInt 7 ∉ primary_keys (financial_reports session_abc))
    by by_decision.
  split; [exact Hfresh |].
  exact (@missing_id_is_not_an_error example_schema 7 data session_abc Hfresh).
Defined.

(** An update of the content and of an unknown entry "ticker". *)
Lemma update_is_partial_witness :
  let old := stored_as 1 (annual_report "abc" 2023 "first") in
  let new := stored_as 1 (annual_report "abc" 2023 "second") in
  let data : gmap string value :=
    {[ "content" := VStr "second"; "ticker" := VStr "x" ]} in
  let σ' := mkSession [new] 2 in
  get_by_id 1 session_abc = (session_abc, Ok (Some old))
  /\ @update example_schema 1 data session_abc = (σ', Ok (Some new))
  /\ In new (financial_reports σ')
  /\ (forall key v,
        data !! key = Some v -> @hasattr example_schema key = true ->
        new !! key = Some v)
  /\ (forall key,
        data !! key = None \/ @hasattr example_schema key = false ->
        new !! key = old !! key).
Proof.
  intros old new data σ'.
  assert (Hget : get_by_id 1 session_abc = (session_abc, Ok (Some old)))
    by by_evaluation.
  assert (Hup : @update example_schema 1 data session_abc
                = (σ', Ok (Some new))) by by_evaluation.
  split; [exact Hget |]. split; [exact Hup |].
  exact (@update_is_partial example_schema 1 data session_abc σ' old new
           Hget Hup).
Defined.

Lemma update_ignores_unknown_keys_witness :
  let old := stored_as 1 (annual_report "abc" 2023 "first") in
  let data : gmap string value :=
    {[ "ticker" := VStr "x"; "note" := VInt 1 ]} in
  get_by_id 1 session_abc = (session_abc, Ok (Some old))
  /\ map_Forall (fun key _ => @hasattr example_schema key = false) data
  /\ @update example_schema 1 data session_abc = (session_abc, Ok (Some old)).
Proof.
  intros old data.
  assert (Hget : get_by_id 1 session_abc = (session_abc, Ok (Some old)))
    by by_evaluation.
  assert (Hunknown : map_Forall
                       (fun key _ => @hasattr example_schema key = false) data)
    by by_decision.
  split; [exact Hget |]. split; [exact Hunknown |].
  exact (@update_ignores_unknown_keys example_schema 1 data session_abc old
           Hget Hunknown).
Defined.

Lemma delete_removes_one_witness :
  let r := stored_as 2 (annual_report "xyz" 2023 "other") in
  get_by_id 2 session_mixed = (session_mixed, Ok (Some r))
  /\ exists σ',
       delete 2 session_mixed = (σ', Ok true)
       /\ get_by_id 2 σ' = (σ', Ok None)
       /\ stored_count σ' = stored_count session_mixed - 1
       /\ (forall x, In x (financial_reports σ')
             <-> In x (financial_reports session_mixed)
                 /\ getattr x "id" <> VInt 2).
Proof.
  intros r.
  assert (Hget : get_by_id 2 session_mixed = (session_mixed, Ok (Some r)))
    by by_evaluation.
  split; [exact Hget |].
  exact (delete_removes_one 2 session_mixed r Hget).
Defined.

(** Deleting "ABC" from a store with two records of abc and one of xyz. *)
Lemma delete_by_symbol_removes_symbol_witness :
  let σ' := mkSession [stored_as 2 (annual_report "xyz" 2023 "other")] 4 in
  lower "xyz" <> lower "ABC"
  /\ delete_by_symbol (VStr "ABC") session_mixed = (σ', Ok 2)
  /\ count_by_symbol (VStr "ABC") session_mixed = (session_mixed, Ok 2)
  /\ stored_count σ' = stored_count session_mixed - 2
  /\ get_by_symbol (VStr "ABC") σ' = (σ', Ok [])
  /\ delete_by_symbol (VStr "ABC") σ' = (σ', Ok 0)
  /\ snd (get_by_symbol (VStr "xyz") σ')
     = snd (get_by_symbol (VStr "xyz") session_mixed).
Proof.
  intros σ'.
  assert (Hne : lower "xyz" <> lower "ABC") by (vm_compute; discriminate).
  split; [exact Hne |].
  assert (Hdel : delete_by_symbol (VStr "ABC") session_mixed = (σ', Ok 2))
    by by_evaluation.
  destruct (delete_by_symbol_removes_symbol "ABC" "xyz" session_mixed Hne)
    as (n & Hn & Hcount & Htotal & Hget & Hagain & Hother).
  rewrite Hdel in Hn, Htotal, Hget, Hagain, Hother.
  cbn [fst] in Hn, Htotal, Hget, Hagain, Hother.
  injection Hn as <-.
  exact (conj Hdel (conj Hcount (conj Htotal (conj Hget
           (conj Hagain Hother))))).
Defined.

Lemma upsert_count_witness :
  let data := annual_report "abc" 2023 "second" in
  let σ' := mkSession [stored_as 1 data] 2 in
  @upsert example_schema data session_abc = (σ', Ok (stored_as 1 data, false))
  /\ stored_count σ' = stored_count session_abc + 0
  /\ In (stored_as 1 data) (financial_reports σ').
Proof.
  intros data σ'.
  assert (Hup : @upsert example_schema data session_abc
                = (σ', Ok (stored_as 1 data, false))) by by_evaluation.
  split; [exact Hup |].
  exact (@upsert_count example_schema _ _ _ _ _ Hup).
Defined.

Lemma upsert_ambiguous_key_witness :
  let data := annual_report "ABC" 2023 "third" in
  data !! "symbol" = Some (VStr "ABC")
  /\ data !! "report_type" = Some (VStr "annual")
  /\ data !! "report_year" = Some (VInt 2023)
  /\ find_duplicate (VStr "ABC") (VStr "annual") (VInt 2023)
       (getattr data "report_quarter") session_ambiguous
     = (session_ambiguous, Raise MultipleResultsFound)
  /\ @upsert example_schema data session_ambiguous
     = (session_ambiguous, Raise MultipleResultsFound).
Proof.
  intros data.
  assert (Hs : data !! "symbol" = Some (VStr "ABC")) by by_evaluation.
  assert (Hty : data !! "report_type" = Some (VStr "annual"))
    by by_evaluation.
  assert (Hyr : data !! "report_year" = Some (VInt 2023)) by by_evaluation.
  assert (Hmany :
            (2 <= List.length
                    (List.filter
                       (has_key (mkKey (VStr (lower "ABC")) (VStr "annual")
                                   (VInt 2023)
                                   (getattr data "report_quarter")))
                       (financial_reports session_ambiguous)))%nat)
    by by_decision.
  split; [exact Hs |]. split; [exact Hty |]. split; [exact Hyr |].
  exact (@upsert_ambiguous_key example_schema data "ABC" (VStr "annual")
           (VInt 2023) session_ambiguous Hs Hty Hyr Hmany).
Defined.

Lemma upsert_missing_key_witness :
  "symbol" ∈ mandatory_keys
  /\ payload_without_symbol !! "symbol" = None
  /\ exists missing,
       missing ∈ mandatory_keys
       /\ payload_without_symbol !! missing = None
       /\ @upsert example_schema payload_without_symbol session_abc
          = (session_abc, Raise (KeyError missing)).
Proof.
  assert (Hkey : "symbol" ∈ mandatory_keys) by by_decision.
  assert (Hnone : payload_without_symbol !! "symbol" = None)
    by by_evaluation.
  split; [exact Hkey |]. split; [exact Hnone |].
  exact (@upsert_missing_key example_schema payload_without_symbol "symbol"
           session_abc Hkey Hnone).
Defined.

Lemma add_then_get_by_symbol_witness :
  let data := annual_report "abc" 2024 "next" in
  let σ' := mkSession [ stored_as 1 (annual_report "abc" 2023 "first");
                        stored_as 2 data ] 3 in
  data !! "symbol" = Some (VStr "abc")
  /\ lower "ABC" = "abc"
  /\ @add example_schema data session_abc = (σ', Ok (stored_as 2 data))
  /\ exists rows,
       get_by_symbol (VStr "ABC") session_abc = (session_abc, Ok rows)
       /\ get_by_symbol (VStr "ABC") σ'
          = (σ', Ok (rows ++ [stored_as 2 data])%list).
Proof.
  intros data σ'.
  assert (Hs : data !! "symbol" = Some (VStr "abc")) by by_evaluation.
  assert (Hlow : lower "ABC" = "abc") by by_evaluation.
  assert (Hadd : @add example_schema data session_abc
                 = (σ', Ok (stored_as 2 data))) by by_evaluation.
  split; [exact Hs |]. split; [exact Hlow |]. split; [exact Hadd |].
  exact (@add_then_get_by_symbol example_schema data "abc" "ABC"
           session_abc σ' (stored_as 2 data) Hs Hlow Hadd).
Defined.

(** An overwrite whose payload names the id 99. *)
Lemma upsert_overwrite_is_partial_witness :
  let data := <["id" := VInt 99]> (annual_report "abc" 2023 "second") in
  let r := stored_as 1 (annual_report "abc" 2023 "second") in
  let σ' := mkSession [r] 2 in
  @upsert example_schema data session_abc = (σ', Ok (r, false))
  /\ exists existing,
       In existing (financial_reports session_abc)
       /\ getattr r "id" = getattr existing "id"
       /\ (forall key v,
             data !! key = Some v -> @hasattr example_schema key = true ->
             key <> "id" -> r !! key = Some v)
       /\ (forall key, data !! key = None -> r !! key = existing !! key).
Proof.
  intros data r σ'.
  assert (Hup : @upsert example_schema data session_abc
                = (σ', Ok (r, false))) by by_evaluation.
  split; [exact Hup |].
  exact (@upsert_overwrite_is_partial example_schema data session_abc σ' r
           Hup).
Defined.

Lemma upsert_bulk_append_witness :
  let first := annual_report "abc" 2023 "second" in
  let other := annual_report "xyz" 2023 "other" in
  let σ1 := mkSession [stored_as 1 first] 2 in
  let σ2 := mkSession [stored_as 1 first; stored_as 2 other] 3 in
  @upsert_bulk example_schema [first] session_abc
    = (σ1, Ok (mkBulkStats 0 1 1))
  /\ @upsert_bulk example_schema [other] σ1 = (σ2, Ok (mkBulkStats 1 0 1))
  /\ @upsert_bulk example_schema ([first] ++ [other]) session_abc
     = (σ2, Ok (mkBulkStats (0 + 1) (1 + 0) (1 + 1))).
Proof.
  intros first other σ1 σ2.
  assert (H1 : @upsert_bulk example_schema [first] session_abc
               = (σ1, Ok (mkBulkStats 0 1 1))) by by_evaluation.
  assert (H2 : @upsert_bulk example_schema [other] σ1
               = (σ2, Ok (mkBulkStats 1 0 1))) by by_evaluation.
  split; [exact H1 |]. split; [exact H2 |].
  exact (@upsert_bulk_append example_schema [first] [other] session_abc
           σ1 σ2 _ _ H1 H2).
Defined.

Lemma upsert_same_payload_twice_witness :
  let data := annual_report "abc" 2023 "second" in
  let σ1 := mkSession [stored_as 1 data] 2 in
  unique_ids session_abc
  /\ data !! "symbol" = Some (VStr "abc")
  /\ lower "abc" = "abc"
  /\ @upsert example_schema data session_abc = (σ1, Ok (stored_as 1 data, false))
  /\ @upsert example_schema data σ1 = (σ1, Ok (stored_as 1 data, false)).
Proof.
  intros data σ1.
  assert (Hunique : unique_ids session_abc) by by_decision.
  assert (Hs : data !! "symbol" = Some (VStr "abc")) by by_evaluation.
  assert (Hlow : lower "abc" = "abc") by by_evaluation.
  assert (Hup : @upsert example_schema data session_abc
                = (σ1, Ok (stored_as 1 data, false))) by by_evaluation.
  split; [exact Hunique |]. split; [exact Hs |]. split; [exact Hlow |].
  split; [exact Hup |].
  exact (@upsert_same_payload_twice example_schema data "abc" session_abc
           σ1 (stored_as 1 data) false Hunique Hs Hlow Hup).
Defined.

Lemma unique_ids_invariant_witness :
  let data := annual_report "abc" 2024 "next" in
  unique_ids session_mixed
  /\ unique_ids (fst (@add example_schema data session_mixed))
  /\ unique_ids (fst (@add_bulk example_schema [data; data] session_mixed))
  /\ unique_ids (fst (@update example_schema 2 {[ "id" := VInt 9 ]}
                        session_mixed))
  /\ unique_ids (fst (@upsert example_schema data session_mixed))
  /\ unique_ids (fst (@upsert_bulk example_schema [data; data] session_mixed))
  /\ unique_ids (fst (delete 2 session_mixed))
  /\ unique_ids (fst (delete_by_symbol (VStr "ABC") session_mixed)).
Proof.
  intros data.
  assert (Hunique : unique_ids session_mixed) by by_decision.
  split; [exact Hunique |].
  destruct (@unique_ids_invariant example_schema {[ "id" := VInt 9 ]}
              [data; data] 2 (VStr "ABC") session_mixed Hunique)
    as (_ & Hbulk & Hupd & _ & Hubulk & Hdel & Hsym).
  destruct (@unique_ids_invariant example_schema data [] 2 (VStr "ABC")
              session_mixed Hunique) as (Hadd & _ & _ & Hups & _).
  auto 10.
Defined.

(** * Readiness and counting *)

Lemma no_missing_tables (required existing : list string) :
  match filter (fun t => t ∉ existing) required with
  | [] => true
  | _ :: _ => false
  end = bool_decide (required ⊆ existing).
Proof.
  induction required as [|t required IH].
  - cbn. symmetry. apply bool_decide_eq_true. by intros x Hx%elem_of_nil.
  - rewrite filter_cons. destruct (decide (t ∉ existing)) as [Hmiss|Hin].
    + symmetry. apply bool_decide_eq_false. intros Hsub.
      apply Hmiss, Hsub. by left.
    + rewrite IH. apply dec_stable in Hin.
      apply bool_decide_ext. split.
      * intros Hsub x [->|Hx]%elem_of_cons; [done | by apply Hsub].
      * intros Hsub x Hx. apply Hsub. by right.
Qed.

Section ReadinessFacts.
Context {W : Type} `{Backend W}.

(** X23: when the database is there and the table query answers,
    [tables_exist] is true exactly when each of the four required tables
    is among the tables listed; further tables and the order of the
    listing do not matter. *)
Theorem tables_exist_iff_required_present
    (self self1 : DBManager W) (w : W) (existing : list string) :
  db_exists self = (self1, Ok true) ->
  execute_select_tables (world self1) = (w, Ok (Some existing)) ->
  tables_exist self
  = (mkDBManager (db_name self1) (master_engine self1) true w,
     Ok (bool_decide (required_tables ⊆ existing))).
Proof.
  intros Hdb Hquery. unfold tables_exist.
  rewrite (bind_ok _ _ _ _ _ Hdb). cbn [negb].
  unfold try_except, bind, _get_engine, on_world.
  cbn beta iota delta [world db_name master_engine target_engine].
  rewrite Hquery. rewrite <- no_missing_tables.
  by destruct (filter _ required_tables).
Qed.
End ReadinessFacts.

(** X24: the counts agree with the lookups: [count_by_symbol] is the
    number of records that [get_by_symbol] returns for the symbol, and it
    is at most [count], the number of all records. *)
Theorem counts_agree (s : string) (σ : Session) :
  exists rows n all,
    get_by_symbol (VStr s) σ = (σ, Ok rows)
    /\ count_by_symbol (VStr s) σ = (σ, Ok n)
    /\ count σ = (σ, Ok all)
    /\ n = Z.of_nat (List.length rows)
    /\ 0 <= n <= all
    /\ all = stored_count σ.
Proof.
  rewrite get_by_symbol_spec, count_by_symbol_spec.
  do 3 eexists. split; [reflexivity |]. split; [reflexivity |].
  assert (Hcount : count σ = (σ, Ok (stored_count σ))).
  { unfold count, bind, select_where, ret, stored_count.
    by rewrite forallb_filter_id by (by apply forallb_forall). }
  split; [exact Hcount |]. split; [done |]. split; [| done].
  unfold stored_count.
  pose proof (filter_partition_length (symbol_is (lower s))
                (financial_reports σ)). lia.
Qed.

(** Three of the four tables and a table of another application. *)
Lemma tables_exist_iff_required_present_witness :
  let w := mkServer true ["huper"]
             [ "financial_reports"; "alembic_version";
               "balance_sheet_items"; "income_statement_items" ] [] in
  db_exists (fresh_manager w) = (manager_connected w, Ok true)
  /\ execute_select_tables (world (manager_connected w))
     = (w, Ok (Some (dbo_tables w)))
  /\ tables_exist (fresh_manager w) = (manager_with_engines w, Ok false).
Proof.
  intros w.
  assert (Hdb : db_exists (fresh_manager w) = (manager_connected w, Ok true))
    by by_evaluation.
  assert (Hquery : execute_select_tables (world (manager_connected w))
                   = (w, Ok (Some (dbo_tables w)))) by by_evaluation.
  split; [exact Hdb |]. split; [exact Hquery |].
  exact (tables_exist_iff_required_present (fresh_manager w)
           (manager_connected w) w (dbo_tables w) Hdb Hquery).
Defined.

(** * The result of the bootstrap *)

Section InitializeResult.
Context {W : Type} `{Backend W}.

Lemma initialize_final_check_true (self self' : DBManager W) :
  initialize_final_check self = (self', Ok true)
  <-> tables_exist self = (self', Ok true).
Proof.
  unfold initialize_final_check, bind, ret.
  destruct (tables_exist self) as [s [[]|e]]; split; congruence.
Qed.

Lemma try_except_false_true {S} (m : M S bool) catches (s s' : S) :
  try_except m catches (fun _ => ret false) s = (s', Ok true)
  <-> m s = (s', Ok true).
Proof.
  unfold try_except. destruct (m s) as [s1 [a|e]]; [done |].
  destruct (catches e); unfold ret; split; congruence.
Qed.

(** The steps of [initialize] after the two checks, when the call
    returns [True]. *)
Lemma initialize_body_true (self2 self' : DBManager W) :
  try_except
    (let* ready := tables_exist in
     if negb ready then
       let* synced := sync_tables in
       if negb synced then ret false else initialize_final_check
     else
       let* synced := sync_tables in initialize_final_check)
    (fun e => is_sqlalchemy_error e || is_runtime_error e)
    (fun _ => ret false) self2 = (self', Ok true)
  <-> exists self3 ready0 self4 synced,
        tables_exist self2 = (self3, Ok ready0)
        /\ sync_tables self3 = (self4, Ok synced)
        /\ (ready0 = true \/ synced = true)
        /\ tables_exist self4 = (self', Ok true).
Proof.
  rewrite try_except_false_true. split.
  - intros (self3 & ready0 & Hready & Hrest)%bind_inv_ok.
    exists self3, ready0.
    destruct ready0; cbn [negb] in Hrest;
      apply bind_inv_ok in Hrest as (self4 & synced & Hsync & Hrest);
      exists self4, synced.
    + apply initialize_final_check_true in Hrest. auto.
    + destruct synced; cbn [negb] in Hrest; [| discriminate].
      apply initialize_final_check_true in Hrest. auto.
  - intros (self3 & ready0 & self4 & synced & Hready & Hsync & Hor & Hfin).
    apply initialize_final_check_true in Hfin.
    rewrite (bind_ok _ _ _ _ _ Hready).
    destruct ready0; cbn [negb]; rewrite (bind_ok _ _ _ _ _ Hsync); [done |].
    destruct Hor as [? | ->]; [discriminate | done].
Qed.

(** C5 (as the code has it): with the connectivity and the database
    check passed, [initialize()] returns [True] exactly when the table
    check and the synchronization return without raising, the
    synchronization did not fail on tables that were missing, and
    [tables_exist()] holds after the synchronization step. *)
Theorem initialize_true_iff (self0 self1 self2 : DBManager W) :
  verify_conn self0 = (self1, Ok true) ->
  db_exists self1 = (self2, Ok true) ->
  snd (initialize self0) = Ok true
  <-> exists self3 ready0 self4 synced self5,
        tables_exist self2 = (self3, Ok ready0)
        /\ sync_tables self3 = (self4, Ok synced)
        /\ (ready0 = true \/ synced = true)
        /\ tables_exist self4 = (self5, Ok true).
Proof.
  intros Hconn Hdb.
  rewrite (initialize_after_checks _ _ _ Hconn Hdb). unfold try_finally.
  destruct (try_except _ _ _ self2) as [self' r] eqn:Hbody. cbn [snd].
  split.
  - intros ->. apply initialize_body_true in Hbody
      as (self3 & ready0 & self4 & synced & Hsteps).
    by exists self3, ready0, self4, synced, self'.
  - intros (self3 & ready0 & self4 & synced & self5 & Hsteps).
    assert (Htrue : exists s, try_except
      (let* ready := tables_exist in
       if negb ready then
         let* synced := sync_tables in
         if negb synced then ret false else initialize_final_check
       else
         let* synced := sync_tables in initialize_final_check)
      (fun e => is_sqlalchemy_error e || is_runtime_error e)
      (fun _ => ret false) self2 = (s, Ok true)).
    { exists self5. apply initialize_body_true.
      by exists self3, ready0, self4, synced. }
    destruct Htrue as [s Htrue]. rewrite Hbody in Htrue. congruence.
Qed.
End InitializeResult.

(** Tables missing and created by the migration: [initialize] returns
    [True]. *)
Lemma initialize_true_iff_witness :
  let w := server_with_pending_migration in
  verify_conn (fresh_manager w) = (manager_connected w, Ok true)
  /\ db_exists (manager_connected w) = (manager_connected w, Ok true)
  /\ snd (initialize (fresh_manager w)) = Ok true.
Proof.
  intros w.
  assert (Hconn : verify_conn (fresh_manager w)
                  = (manager_connected w, Ok true)) by by_evaluation.
  assert (Hdb : db_exists (manager_connected w)
                = (manager_connected w, Ok true)) by by_evaluation.
  split; [exact Hconn |]. split; [exact Hdb |].
  apply (initialize_true_iff _ _ _ Hconn Hdb).
  exists (manager_with_engines w), false,
    (manager_with_engines (mkServer true ["huper"] required_tables [])), true,
    (manager_with_engines (mkServer true ["huper"] required_tables [])).
  split; [by_evaluation |]. split; [by_evaluation |].
  split; [by right | by_evaluation].
Defined.

(** C5 as stated fails in two ways.  The tables are missing, the
    migration creates them and then fails: [tables_exist()] holds after
    the synchronization step, yet [initialize()] returns [False].  The
    tables are there and the migration raises an error of a class no
    handler names: [tables_exist()] holds, yet [initialize()] raises. *)
Lemma initialize_not_true_though_tables_exist :
  (let w := server_with_partial_migration in
   let w' := mkServer true ["huper"] required_tables [Broken RuntimeError] in
   verify_conn (fresh_manager w) = (manager_connected w, Ok true)
   /\ db_exists (manager_connected w) = (manager_connected w, Ok true)
   /\ tables_exist (manager_connected w) = (manager_with_engines w, Ok false)
   /\ sync_tables (manager_with_engines w)
      = (manager_with_engines w', Ok false)
   /\ tables_exist (manager_with_engines w')
      = (manager_with_engines w', Ok true)
   /\ snd (initialize (fresh_manager w)) = Ok false)
  /\ (let w := server_with_foreign_error in
      verify_conn (fresh_manager w) = (manager_connected w, Ok true)
      /\ db_exists (manager_connected w) = (manager_connected w, Ok true)
      /\ tables_exist (manager_connected w)
         = (manager_with_engines w, Ok true)
      /\ sync_tables (manager_with_engines w)
         = (manager_with_engines w, Raise OtherError)
      /\ tables_exist (manager_with_engines w)
         = (manager_with_engines w, Ok true)
      /\ snd (initialize (fresh_manager w)) = Raise OtherError).
Proof. split; intros; repeat split; by_evaluation. Qed.

(** * Upsert on one business key, under the server's comparison *)

Lemma collated_is_none `{Collation} (v : value) :
  is_none (collated v) = is_none v.
Proof. by destruct v. Qed.

Lemma sql_eq_under_decide `{Collation} (column param : value) :
  sql_eq_under column param = bool_decide (collated column = collated param).
Proof. apply sql_eq_decide. Qed.

Lemma is_none_under `{Collation} (column : value) :
  is_none column = bool_decide (collated column = collated VNone).
Proof. destruct column; cbn; by repeat case_bool_decide. Qed.

Lemma bool_decide_key (a1 a2 a3 a4 b1 b2 b3 b4 : value) :
  bool_decide (a1 = b1) && bool_decide (a2 = b2) && bool_decide (a3 = b3)
  && bool_decide (a4 = b4)
  = bool_decide (mkKey a1 a2 a3 a4 = mkKey b1 b2 b3 b4).
Proof. repeat case_bool_decide; cbn; try reflexivity; congruence. Qed.

(** At the binary collation the comparison is the exact one, so the
    lookup and the upsert are the ones of the repository above. *)
Lemma sql_eq_under_binary (column param : value) :
  @sql_eq_under binary_collation column param = sql_eq column param.
Proof. by destruct column, param. Qed.

Lemma find_duplicate_under_binary symbol ty yr q σ :
  @find_duplicate_under binary_collation symbol ty yr q σ
  = find_duplicate symbol ty yr q σ.
Proof.
  unfold find_duplicate_under, find_duplicate, bind.
  destruct (str_lower symbol σ) as [σ1 [lowered|e]]; [| done].
  unfold select_where. f_equal.
  apply filter_ext_bool. intros r.
  destruct (is_none q); cbn [negb]; by rewrite !sql_eq_under_binary.
Qed.

Lemma upsert_under_binary `{Schema} data σ :
  @upsert_under binary_collation _ data σ = upsert data σ.
Proof.
  unfold upsert_under, upsert, bind.
  destruct (subscript data "symbol" σ) as [σ1 [sym|e]]; [| done].
  destruct (subscript data "report_type" σ1) as [σ2 [ty|e]]; [| done].
  destruct (subscript data "report_year" σ2) as [σ3 [yr|e]]; [| done].
  by rewrite find_duplicate_under_binary.
Qed.

(** The comparison that ignores case equates every symbol with its
    lowercase form. *)
Lemma case_insensitive_equates_lowercase (s : string) :
  @collation_key case_insensitive_collation (lower s)
  = @collation_key case_insensitive_collation s.
Proof. cbn. apply lower_idemp. Qed.

Section CollatedFacts.
Context `{collation : Collation} `{schema : Schema}.

(** The lookup selects by business key as the collation sees it, the
    symbol argument lowered. *)
Lemma find_duplicate_under_spec (s : string) ty yr q σ :
  find_duplicate_under (VStr s) ty yr q σ =
    scalar_one_or_none
      (List.filter (has_key_under (mkKey (VStr (lower s)) ty yr q))
                   (financial_reports σ)) σ.
Proof.
  unfold find_duplicate_under, bind, select_where. cbn [str_lower ret].
  f_equal. apply filter_ext_bool. intros r.
  unfold has_key_under, key_under, business_key.
  cbn [key_symbol key_type key_year key_quarter].
  rewrite <- bool_decide_key, <- !sql_eq_under_decide.
  destruct (is_none q) eqn:Hq; cbn [negb]; [| done].
  destruct q; try discriminate.
  f_equal. unfold sql_eq_under.
  by destruct (getattr r "report_quarter").
Qed.

Lemma has_key_under_ext (k k' : BusinessKey)
    (rows : list FinancialReport) :
  key_under k' = key_under k ->
  List.filter (has_key_under k') rows = List.filter (has_key_under k) rows.
Proof.
  intros Hk. apply filter_ext_bool. intros r. unfold has_key_under.
  by rewrite Hk.
Qed.

Lemma has_key_under_exact (k : BusinessKey) (r : FinancialReport) :
  business_key r = k -> has_key_under k r = true.
Proof. intros <-. unfold has_key_under. by apply bool_decide_eq_true. Qed.

(** The two branches of [upsert_under], run forward. *)
Lemma upsert_under_found data (s : string) ty yr existing σ :
  data !! "symbol" = Some (VStr s) ->
  data !! "report_type" = Some ty ->
  data !! "report_year" = Some yr ->
  List.filter
    (has_key_under
       (mkKey (VStr (lower s)) ty yr (getattr data "report_quarter")))
    (financial_reports σ) = [existing] ->
  upsert_under data σ =
    (let* refreshed :=
       update_commit (getattr existing "id")
         (setattr_items upsert_guard data existing) in
     ret (refreshed, false)) σ.
Proof.
  intros Hs Hty Hyr Hrows.
  unfold upsert_under, subscript. rewrite Hs, Hty, Hyr.
  unfold bind at 1 2 3 4. cbn [ret].
  by rewrite find_duplicate_under_spec, Hrows.
Qed.

Lemma upsert_under_not_found data (s : string) ty yr σ :
  data !! "symbol" = Some (VStr s) ->
  data !! "report_type" = Some ty ->
  data !! "report_year" = Some yr ->
  List.filter
    (has_key_under
       (mkKey (VStr (lower s)) ty yr (getattr data "report_quarter")))
    (financial_reports σ) = [] ->
  upsert_under data σ =
    (let* new_report := new_FinancialReport data in
     let* refreshed := insert_commit new_report in
     ret (refreshed, true)) σ.
Proof.
  intros Hs Hty Hyr Hrows.
  unfold upsert_under, subscript. rewrite Hs, Hty, Hyr.
  unfold bind at 1 2 3 4. cbn [ret].
  by rewrite find_duplicate_under_spec, Hrows.
Qed.

(** C2 (as the code has it): under the server's string comparison, for a
    business key whose symbol the comparison equates with its lowercase
    form (every symbol, when the comparison ignores case), two payloads
    carrying the key and a store with no record of the key: when
    [upsert(P1)] returns it has created the record, and [upsert(P2)] then
    returns [created = False] and leaves exactly one record with the key;
    that record has [P2]'s value in every attribute of the entity that
    [P2] names (other than [id]) and keeps the value the first call
    stored in every attribute [P2] does not name. *)
Theorem upsert_idempotent_under (k : BusinessKey)
    (P1 P2 : gmap string value) (σ σ1 : Session)
    (r1 : FinancialReport) (c1 : bool) :
  (forall s, key_symbol k = VStr s ->
             collation_key (lower s) = collation_key s) ->
  carries_key P1 k ->
  carries_key P2 k ->
  List.filter (has_key_under k) (financial_reports σ) = [] ->
  upsert_under P1 σ = (σ1, Ok (r1, c1)) ->
  c1 = true
  /\ exists σ2 r2,
       upsert_under P2 σ1 = (σ2, Ok (r2, false))
       /\ List.filter (has_key_under k) (financial_reports σ2) = [r2]
       /\ (forall key v,
             P2 !! key = Some v -> hasattr key = true -> key <> "id" ->
             r2 !! key = Some v)
       /\ (forall key, P2 !! key = None -> r2 !! key = r1 !! key).
Proof.
  intros Hlow Hc1 Hc2 Hfree Hup1.
  (* the first call returns, so the symbol is a string *)
  assert (Hstr : exists s, key_symbol k = VStr s).
  { destruct Hc1 as (Hs & Hty & Hyr & _).
    unfold upsert_under, subscript in Hup1. rewrite Hs, Hty, Hyr in Hup1.
    unfold bind at 1 2 3 4 in Hup1. cbn [ret] in Hup1.
    destruct (key_symbol k) as [|m|s]; [discriminate | discriminate |].
    by exists s. }
  destruct Hstr as [s Hks]. specialize (Hlow s Hks).
  assert (Hk : forall data, carries_key data k ->
            data !! "symbol" = Some (VStr s)
            /\ data !! "report_type" = Some (key_type k)
            /\ data !! "report_year" = Some (key_year k)
            /\ key_under (mkKey (VStr (lower s)) (key_type k) (key_year k)
                            (getattr data "report_quarter"))
               = key_under k).
  { intros data (Hs & Hty & Hyr & Hq). rewrite Hks in Hs.
    repeat (split; [done |]).
    unfold key_under. cbn [key_symbol key_type key_year key_quarter].
    rewrite Hq, Hks. cbn [collated]. by rewrite Hlow. }
  (* first call: the store has no record of the key, so it inserts *)
  destruct (Hk P1 Hc1) as (Hs1 & Hty1 & Hyr1 & Hk1).
  rewrite (upsert_under_not_found P1 s (key_type k) (key_year k)) in Hup1
    by (try done; by rewrite (has_key_under_ext _ _ _ Hk1)).
  apply bind_inv_ok in Hup1 as (σa & report & Hnew & Hup1).
  apply new_FinancialReport_ok in Hnew as [-> ->].
  apply bind_inv_ok in Hup1 as (σb & refreshed & Hins & Hret).
  unfold ret in Hret. injection Hret as <- <- <-.
  split; [done |].
  pose proof (insert_commit_ok _ _ _ _ Hins)
    as (Htable1 & Hkeep & Hfresh & n & Hid).
  assert (Hkey1 : business_key refreshed = k).
  { by apply (business_key_of_payload P1). }
  (* second call: it finds that record and overwrites it *)
  destruct (Hk P2 Hc2) as (Hs2 & Hty2 & Hyr2 & Hk2).
  set (r2 := setattr_items upsert_guard P2 refreshed).
  assert (Hid2 : getattr r2 "id" = VInt n).
  { unfold r2. rewrite setattr_items_getattr_keep; [done |].
    left. apply upsert_guard_id. }
  exists (mkSession (financial_reports σ ++ [r2]) (identity σb)), r2.
  split; [| split; [| split]].
  - rewrite (upsert_under_found P2 s (key_type k) (key_year k) refreshed);
      try done.
    + unfold bind, update_commit, identity_update_refused. fold r2.
      rewrite Hid2, Hid. rewrite bool_decide_eq_true_2 by done. cbn [negb].
      rewrite Htable1, <- Hid, rewrite_last_row by done. reflexivity.
    + rewrite (has_key_under_ext _ _ _ Hk2), Htable1, List.filter_app, Hfree.
      cbn. by rewrite has_key_under_exact.
  - cbn [financial_reports]. rewrite List.filter_app, Hfree. cbn.
    rewrite has_key_under_exact; [done |].
    by apply business_key_overwritten.
  - intros key v Hv Hattr Hne. unfold r2.
    by rewrite setattr_items_lookup, upsert_guard_column, Hv.
  - intros key Hnone. unfold r2. rewrite setattr_items_lookup, Hnone.
    by destruct (upsert_guard key).
Qed.
End CollatedFacts.

(** An upsert of the uppercase symbol under the comparison that ignores
    case, into a store that holds another symbol. *)
Lemma upsert_idempotent_under_witness :
  let k := mkKey (VStr "ABC") (VStr "annual") (VInt 2023) VNone in
  let P1 := annual_report "ABC" 2023 "first" in
  let P2 := annual_report "ABC" 2023 "second" in
  let other := stored_as 1 (annual_report "xyz" 2023 "other") in
  let σ := mkSession [other] 2 in
  let r1 := stored_as 2 P1 in
  let σ1 := mkSession [other; r1] 3 in
  (forall s, key_symbol k = VStr s ->
             @collation_key case_insensitive_collation (lower s)
             = @collation_key case_insensitive_collation s)
  /\ carries_key P1 k
  /\ carries_key P2 k
  /\ List.filter (@has_key_under case_insensitive_collation k)
       (financial_reports σ) = []
  /\ @upsert_under case_insensitive_collation example_schema P1 σ
     = (σ1, Ok (r1, true))
  /\ exists σ2 r2,
       @upsert_under case_insensitive_collation example_schema P2 σ1
       = (σ2, Ok (r2, false))
       /\ List.filter (@has_key_under case_insensitive_collation k)
            (financial_reports σ2) = [r2]
       /\ (forall key v,
             P2 !! key = Some v -> @hasattr example_schema key = true ->
             key <> "id" -> r2 !! key = Some v)
       /\ (forall key, P2 !! key = None -> r2 !! key = r1 !! key).
Proof.
  intros k P1 P2 other σ r1 σ1.
  assert (Hlow : forall s, key_symbol k = VStr s ->
            @collation_key case_insensitive_collation (lower s)
            = @collation_key case_insensitive_collation s)
    by (intros s [= <-]; by_evaluation).
  assert (Hc1 : carries_key P1 k) by (repeat split; by_evaluation).
  assert (Hc2 : carries_key P2 k) by (repeat split; by_evaluation).
  assert (Hfree : List.filter (@has_key_under case_insensitive_collation k)
                    (financial_reports σ) = []) by by_evaluation.
  assert (Hup : @upsert_under case_insensitive_collation example_schema P1 σ
                = (σ1, Ok (r1, true))) by by_evaluation.
  split; [exact Hlow |]. split; [exact Hc1 |]. split; [exact Hc2 |].
  split; [exact Hfree |]. split; [exact Hup |].
  exact (proj2 (@upsert_idempotent_under case_insensitive_collation
                  example_schema k P1 P2 σ σ1 r1 true Hlow Hc1 Hc2 Hfree
                  Hup)).
Defined.

(** C2, counterexamples to the claim as worded.  Under the exact and under
    the case-insensitive comparison alike: a first payload with an entry
    the entity does not have makes [upsert(P1)] raise and store nothing,
    and [upsert(P2)] then returns [created = True]; and a second payload
    that names no content leaves the content of the first one in the
    store.  Under the exact comparison an uppercase symbol is moreover
    never found again, and is stored twice. *)
Lemma upsert_twice_not_as_claimed :
  let k := mkKey (VStr "abc") (VStr "annual") (VInt 2023) VNone in
  let P1 := annual_report "abc" 2023 "first" in
  let P2 := annual_report "abc" 2023 "second" in
  let r1 := stored_as 1 P1 in
  let σ1 := mkSession [r1] 2 in
  let U := annual_report "ABC" 2023 "first" in
  (carries_key report_with_ticker k /\ carries_key P1 k
   /\ carries_key P2 k /\ carries_key report_without_content k)
  /\ (forall c : Collation,
        c = binary_collation \/ c = case_insensitive_collation ->
        @upsert_under c example_schema report_with_ticker empty_session
        = (empty_session, Raise TypeError)
        /\ @upsert_under c example_schema P2 empty_session
           = (mkSession [stored_as 1 P2] 2, Ok (stored_as 1 P2, true))
        /\ @upsert_under c example_schema P1 empty_session
           = (σ1, Ok (r1, true))
        /\ @upsert_under c example_schema report_without_content σ1
           = (σ1, Ok (r1, false))
        /\ report_without_content !! "content" = None
        /\ r1 !! "content" = Some (VStr "first"))
  /\ @upsert_under binary_collation example_schema U empty_session
     = (mkSession [stored_as 1 U] 2, Ok (stored_as 1 U, true))
  /\ @upsert_under binary_collation example_schema U
       (mkSession [stored_as 1 U] 2)
     = (mkSession [stored_as 1 U; stored_as 2 U] 3, Ok (stored_as 2 U, true)).
Proof.
  intros k P1 P2 r1 σ1 U.
  split; [repeat split; by_evaluation |].
  split; [| split; by_evaluation].
  intros c [-> | ->]; repeat (split; [by_evaluation |]); by_evaluation.
Qed.

(** * The identity of a stored report *)

Section IdentityImmutable.
Context `{schema : Schema}.

Lemma update_commit_keeps_id old_id report σ σ' stored :
  update_commit old_id report σ = (σ', Ok stored) ->
  getattr stored "id" = old_id.
Proof.
  unfold update_commit, identity_update_refused.
  destruct (getattr report "id") as [|m|] eqn:Hid; try discriminate.
  case_bool_decide as Hsame; cbn [negb]; [| discriminate].
  intros [= _ <-]. by rewrite Hid.
Qed.

Lemma update_commit_refuses old_id report σ :
  getattr report "id" <> old_id ->
  exists e, update_commit old_id report σ = (σ, Raise e).
Proof.
  intros Hne. unfold update_commit, identity_update_refused.
  destruct (getattr report "id") as [|m|] eqn:Hid; [by eexists | | by eexists].
  rewrite bool_decide_eq_false_2 by done. cbn [negb]. by eexists.
Qed.

(** C6: no operation of the store that modifies an existing record
    changes the id of a stored record.  For a stored record [old] with the
    id [n]: whatever [update(n, data)] does, the ids of the stored
    records, in the order of the table, are afterwards what they were;
    when it returns a record, that record has the id of [old]; when
    [data] names another id, the server refuses the statement, [update]
    raises, and the store is left as it was.  When [upsert] overwrites, the
    ids of the stored records are likewise what they were, and the record
    it returns has the id of the record it found. *)
Theorem stored_id_is_immutable (n : Z) (data : gmap string value)
    (σ : Session) (old : FinancialReport) :
  get_by_id n σ = (σ, Ok (Some old)) ->
  primary_keys (financial_reports (fst (update n data σ)))
    = primary_keys (financial_reports σ)
  /\ (forall σ' r,
        update n data σ = (σ', Ok (Some r)) ->
        getattr r "id" = getattr old "id")
  /\ (forall v,
        data !! "id" = Some v -> v <> getattr old "id" ->
        exists e, update n data σ = (σ, Raise e))
  /\ (forall payload σ' r,
        upsert payload σ = (σ', Ok (r, false)) ->
        primary_keys (financial_reports σ')
          = primary_keys (financial_reports σ)
        /\ exists existing,
             In existing (financial_reports σ)
             /\ getattr r "id" = getattr existing "id").
Proof.
  intros Hget.
  assert (Hupd : update n data σ =
            (let* refreshed :=
               update_commit (getattr old "id")
                 (setattr_items hasattr data old) in
             ret (Some refreshed)) σ).
  { unfold update. by rewrite (bind_ok _ _ _ _ _ Hget). }
  split; [| split; [| split]].
  - rewrite Hupd. unfold bind.
    pose proof (update_commit_ids (getattr old "id")
                  (setattr_items hasattr data old) σ) as Hids.
    by destruct (update_commit _ _ σ) as [σ' [stored|e]].
  - intros σ' r Hr. rewrite Hupd in Hr.
    apply bind_inv_ok in Hr as (σa & stored & Hcommit & Hret).
    unfold ret in Hret. injection Hret as _ <-.
    by apply update_commit_keeps_id in Hcommit.
  - intros v Hv Hne. rewrite Hupd.
    destruct (update_commit_refuses (getattr old "id")
                (setattr_items hasattr data old) σ) as [e He].
    { by rewrite (setattr_items_getattr_set _ _ _ _ v). }
    exists e. by rewrite (bind_raise _ _ _ _ _ He).
  - intros payload σ' r Hup.
    apply upsert_ok in Hup as (s & ty & yr & _ & _ & _ & Hbranch).
    destruct Hbranch as [[? _] | (_ & existing & Hrows & Hcommit)];
      [discriminate |].
    split.
    + pose proof (update_commit_ids (getattr existing "id")
                    (setattr_items upsert_guard payload existing) σ) as Hids.
      by rewrite Hcommit in Hids.
    + exists existing. split.
      * by apply filter_singleton_In in Hrows as [? _].
      * by apply update_commit_keeps_id in Hcommit.
Qed.
End IdentityImmutable.

(** An update that names the id 99 for the record stored under 1, and an
    overwrite by a payload that names the id 99. *)
Lemma stored_id_is_immutable_witness :
  let data := {[ "id" := VInt 99; "content" := VStr "second" ]} in
  let old := stored_as 1 (annual_report "abc" 2023 "first") in
  get_by_id 1 session_abc = (session_abc, Ok (Some old))
  /\ primary_keys
       (financial_reports (fst (@update example_schema 1 data session_abc)))
     = primary_keys (financial_reports session_abc)
  /\ (exists e,
        @update example_schema 1 data session_abc = (session_abc, Raise e))
  /\ @update example_schema 1 data session_abc
     = (session_abc, Raise DBAPIError).
Proof.
  intros data old.
  assert (Hget : get_by_id 1 session_abc = (session_abc, Ok (Some old)))
    by by_evaluation.
  split; [exact Hget |].
  destruct (@stored_id_is_immutable example_schema 1 data session_abc old
              Hget) as (Hids & _ & Hraise & _).
  split; [exact Hids |].
  split; [| by_evaluation].
  apply (Hraise (VInt 99)); [by_evaluation | discriminate].
Defined.
